(** * AutoFlow server (src/server.js): a shallow embedding and its properties

    The server is one Express handler table over module-level arrays
    ([users], [workflows], [executions], [integrations], [templates]).
    Handlers run to completion on the event loop, except where the source
    suspends: [await bcrypt.hash] in the registration handler, the
    [bcrypt.hash(...).then] of the start-up callback, and the [setTimeout]
    callback armed by an execution.  Those three are modelled as separate
    actions of a transition system, so that the interleavings the event
    loop allows are the interleavings of the model.

    Outside the model: the global middleware in front of the router
    (helmet, cors, the rate limiter, morgan, the body parsers), the two
    fixed reports [/health] and [/api/docs], and the fallback handlers
    behind the routes.  A request of the model is a request as the router
    sees it, its body parsed into an object (the empty object when the
    request carries none).  The reports [/] and [/api/system/stats] read
    the state without changing it; they are functions of the state beside
    the router of the transition system. *)

From Stdlib Require Import ZArith List String Ascii Bool Lia DecimalString.
From stdpp Require Import base option list countable strings gmap.

Import ListNotations.
Local Open Scope string_scope.
Local Open Scope Z_scope.

(** ** JavaScript values as they arrive in JSON bodies and token payloads *)

Local Set Warnings "-register-all".

Inductive jsval : Type :=
| JUndefined
| JNull
| JBool (b : bool)
| JNum (n : Z)
| JStr (s : string)
| JArr (items : list jsval)
| JObj (fields : list (string * jsval)).

(** [!v] is [negb (truthy v)].  Numbers are the integers of JSON; a
    fractional number behaves as any other non-zero number here.  [JNum n]
    is the parsed value, a double whose value is the integer [n]. *)
Definition truthy (v : jsval) : bool :=
  match v with
  | JUndefined | JNull => false
  | JBool b => b
  | JNum n => negb (n =? 0)
  | JStr s => negb (String.eqb s "")
  | JArr _ | JObj _ => true
  end.

(** [a === b] between a stored value and a value of the current request.
    Primitives compare by value.  Arrays and objects compare by identity,
    and every request (and every decoded token) carries freshly parsed
    objects, so a stored array or object is never identical to a later one. *)
Definition strict_eq (a b : jsval) : bool :=
  match a, b with
  | JUndefined, JUndefined => true
  | JNull, JNull => true
  | JBool x, JBool y => Bool.eqb x y
  | JNum x, JNum y => x =? y
  | JStr x, JStr y => String.eqb x y
  | _, _ => false
  end.

(** [a || b] *)
Definition js_or (a b : jsval) : jsval := if truthy a then a else b.

Definition string_of_Z (n : Z) : string := NilZero.string_of_int (Z.to_int n).

Definition join_with (sep : string) (parts : list string) : string :=
  match parts with
  | [] => ""
  | p :: rest => fold_left (fun acc q => acc ++ sep ++ q) rest p
  end.

(** The double nearest to a non-negative integer, ties to even.  Below
    2^53 every integer is a double. *)
Definition to_double (v : Z) : Z :=
  if v <? 2 ^ 53 then v
  else
    let shift := Z.log2 v - 52 in
    let q := Z.shiftr v shift in
    let r := v - Z.shiftl q shift in
    let half := Z.shiftl 1 (shift - 1) in
    let q' := if r <? half then q
              else if half <? r then q + 1
              else if Z.even q then q else q + 1 in
    Z.shiftl q' shift.

(** [Number::toString] prints the fewest decimal digits that still read
    back as the same double.  For a positive integer-valued double [x] of
    [n] decimal places: the least [k], and for it the closest [s] of [k]
    digits, such that [s * 10^(n-k)] reads back as [x]. *)
Fixpoint shortest_digits (fuel : nat) (k n x : Z) : Z * Z :=
  match fuel with
  | O => (x, n)
  | S fuel' =>
      let p := 10 ^ (n - k) in
      let lo := x / p in
      let hi := lo + 1 in
      let lo_ok := (10 ^ (k - 1) <=? lo) && (to_double (lo * p) =? x) in
      let hi_ok := to_double (hi * p) =? x in
      if lo_ok && hi_ok then
        (if x - lo * p <? hi * p - x then lo
         else if hi * p - x <? x - lo * p then hi
         else if Z.even lo then lo else hi, k)
      else if lo_ok then (lo, k)
      else if hi_ok then (hi, k)
      else shortest_digits fuel' (k + 1) n x
  end.

Definition zeros (n : Z) : string :=
  String.concat "" (List.repeat "0" (Z.to_nat n)).

(** The number is the double nearest to the numeral of the body, infinite
    from 2^1024 on.  Up to 21 places the digits are followed by zeros;
    beyond, the number is printed with an exponent. *)
Definition positive_to_string (v : Z) : string :=
  let x := to_double v in
  if 2 ^ 1024 <=? x then "Infinity"
  else
    let n := Z.of_nat (String.length (string_of_Z x)) in
    let (s, k) := shortest_digits (Z.to_nat n) 1 n x in
    let '(s, k, n) := if s =? 10 ^ k then (1, 1, n + 1) else (s, k, n) in
    let digits := string_of_Z s in
    if n <=? 21 then digits ++ zeros (n - k)
    else
      match digits with
      | String d EmptyString => String d ("e+" ++ string_of_Z (n - 1))
      | String d rest => String d ("." ++ rest ++ "e+" ++ string_of_Z (n - 1))
      | EmptyString => EmptyString
      end.

Definition number_to_string (x : Z) : string :=
  if x =? 0 then "0"
  else if x <? 0 then "-" ++ positive_to_string (- x)
  else positive_to_string x.

(** String conversion of a template literal, [`${v}`]; [None] when the
    conversion throws a TypeError.  An object converts through its
    [toString]: a parsed object that has a property of that name has a
    value there that cannot be called, and the conversion throws;
    otherwise it is [Object.prototype.toString].  An array converts
    through [Array.prototype.join], where [null] and [undefined] render
    as the empty string and every other element is converted in turn. *)
Fixpoint js_to_string (v : jsval) : option string :=
  match v with
  | JUndefined => Some "undefined"
  | JNull => Some "null"
  | JBool true => Some "true"
  | JBool false => Some "false"
  | JNum n => Some (number_to_string n)
  | JStr s => Some s
  | JArr items =>
      option_map (join_with ",")
        ((fix each (l : list jsval) : option (list string) :=
            match l with
            | [] => Some []
            | x :: rest =>
                match match x with
                      | JUndefined | JNull => Some ""
                      | _ => js_to_string x
                      end with
                | None => None
                | Some rendered => option_map (cons rendered) (each rest)
                end
            end) items)
  | JObj fields =>
      if existsb (fun kv => String.eqb (fst kv) "toString") fields then None
      else Some "[object Object]"
  end.

(** [s.split(' ')] *)
Fixpoint split_space (s : string) : list string :=
  match s with
  | EmptyString => [EmptyString]
  | String c rest =>
      if Ascii.eqb c " "%char then EmptyString :: split_space rest
      else match split_space rest with
           | h :: t => String c h :: t
           | [] => [String c EmptyString]
           end
  end.

(** [arr.push(x)] *)
Definition push {A : Type} (x : A) (arr : list A) : list A := (arr ++ [x])%list.

(** A parsed request body; a property that is absent reads as [undefined]. *)
Definition field (b : gmap string jsval) (k : string) : jsval :=
  default JUndefined (b !! k).

(** ** The data model *)

Record user := {
  u_id : string;
  u_email : jsval;
  u_name : jsval;
  u_password : string;            (* the bcrypt hash *)
  u_role : string;
  u_createdAt : Z }.

(** An absent property ([templateId] of a workflow that was not deployed
    from a template, [userId] of a seeded integration, ...) is [JUndefined]:
    reading it gives [undefined] and [JSON.stringify] drops it either way. *)
Record workflow := {
  w_id : string;
  w_userId : jsval;
  w_name : jsval;
  w_description : jsval;
  w_trigger : jsval;
  w_actions : jsval;
  w_status : string;
  w_templateId : jsval;
  w_createdAt : Z;
  w_updatedAt : Z }.

Record integration := {
  i_id : string;
  i_userId : jsval;
  i_name : jsval;
  i_type : jsval;
  i_config : jsval;
  i_status : string;
  i_description : jsval;
  i_createdAt : option Z }.

Record template := {
  t_id : string;
  t_name : string;
  t_description : string;
  t_category : string;
  t_triggers : list string;
  t_actions : list string;
  t_price : Z }.

Record execution := {
  e_id : string;
  e_userId : jsval;
  e_workflowId : string;
  e_status : string;
  e_startedAt : Z;
  e_completedAt : option Z;
  e_logs : list string }.

(** The object handed to [jwt.sign] and the object [jwt.verify] hands back
    as [req.user].  ([jwt.verify] adds [iat] and [exp]; no handler reads
    them.) *)
Record payload := {
  p_userId : jsval;
  p_email : jsval;
  p_role : jsval }.

(** ** The two libraries the handlers call

    [bcryptjs] and [jsonwebtoken] are not code of the server; the model
    takes them as an interface.  [bcrypt_hash pw salt] is [bcrypt.hash(pw,
    12)] with the salt it drew; [jwt_sign p secret iat] is [jwt.sign(p,
    secret, {expiresIn: '24h'})] issued at second [iat]; [jwt_verify tok
    secret now] is the payload [jwt.verify] passes to its callback at
    second [now], or [None] when it passes an error. *)
Record crypto := {
  bcrypt_hash : string -> string -> string;
  bcrypt_compare : string -> string -> bool;
  jwt_sign : payload -> string -> Z -> string;
  jwt_verify : string -> string -> Z -> option payload }.

Definition token_lifetime : Z := 24 * 60 * 60.

(** What [jsonwebtoken] promises: a token verifies under the secret that
    signed it until it expires, and it is a non-empty string without
    spaces (three base64url parts joined by dots). *)
Record jwt_sound (lib : crypto) : Prop := {
  jwt_verify_sign : forall p secret iat now,
    now < iat + token_lifetime ->
    jwt_verify lib (jwt_sign lib p secret iat) secret now = Some p;
  jwt_sign_word : forall p secret iat,
    split_space (jwt_sign lib p secret iat) = [jwt_sign lib p secret iat];
  jwt_sign_nonempty : forall p secret iat,
    jwt_sign lib p secret iat <> "" }.

(** ** Responses *)

Record user_view := {
  uv_id : string;
  uv_email : jsval;
  uv_name : jsval;
  uv_role : string }.

Inductive resp_body :=
| BError (error : string)
| BAuth (message token : string) (u : user_view)
| BWorkflows (ws : list workflow)
| BWorkflow (w : workflow)
| BDeployed (message : string) (w : workflow)
| BIntegrations (l : list integration)
| BIntegration (i : integration)
| BTemplates (l : list template)
| BExecutions (l : list execution)
| BExecution (e : execution).

Record response := { status : Z; body : resp_body }.

Definition json (st : Z) (b : resp_body) : response := {| status := st; body := b |}.
Definition error (st : Z) (msg : string) : response := json st (BError msg).

(** ** The module-level state *)

(** A registration handler suspended at [await bcrypt.hash(password, 12)]:
    what its continuation still holds of the request. *)
Record pending_registration := {
  pr_email : jsval;
  pr_name : jsval;
  pr_password : string }.

(** An armed [setTimeout] callback.  Its closure holds the execution
    object that was pushed onto [executions]; the array only ever grows,
    so the object is the element at the index it was pushed at.
    [tm_delay] is the delay [setTimeout] was given.  When Node runs the
    callback is Node's matter: its timers run on the event loop's own
    clock, which [new Date()] does not read, so the model ties no clock
    reading of the callback to the delay. *)
Record timer := {
  tm_exec : nat;
  tm_delay : Z }.

Record state := {
  users : list user;
  workflows : list workflow;
  executions : list execution;
  integrations : list integration;
  listening : bool;                          (* the listen callback has run *)
  seed_pending : bool;                       (* its bcrypt.hash is outstanding *)
  registering : list pending_registration;
  timers : list timer;
  clock : Z }.                               (* milliseconds *)

Definition seed_integration (id name type description : string) : integration :=
  {| i_id := id; i_userId := JUndefined; i_name := JStr name; i_type := JStr type;
     i_config := JUndefined; i_status := "active"; i_description := JStr description;
     i_createdAt := None |}.

Definition integrations0 : list integration :=
  [ seed_integration "github-1" "GitHub" "github" "GitHub repository management and automation";
    seed_integration "slack-1" "Slack" "slack" "Slack messaging and notifications";
    seed_integration "openai-1" "OpenAI" "openai" "AI-powered content generation and analysis";
    seed_integration "aws-1" "AWS" "aws" "Amazon Web Services integration";
    seed_integration "stripe-1" "Stripe" "stripe" "Payment processing and subscription management" ].

(** [templates] is never assigned or mutated after its declaration. *)
Definition templates : list template :=
  [ {| t_id := "email-automation-1";
       t_name := "Email Marketing Automation";
       t_description := "Automated email sequences for lead nurturing";
       t_category := "Marketing";
       t_triggers := ["webhook"; "schedule"];
       t_actions := ["email"; "crm_update"];
       t_price := 99 |};
    {| t_id := "social-media-1";
       t_name := "Social Media Cross-posting";
       t_description := "Post content across multiple social platforms";
       t_category := "Social Media";
       t_triggers := ["manual"; "schedule"];
       t_actions := ["twitter_post"; "linkedin_post"; "facebook_post"];
       t_price := 149 |} ].

Definition init : state :=
  {| users := []; workflows := []; executions := []; integrations := integrations0;
     listening := false; seed_pending := false; registering := []; timers := [];
     clock := 0 |}.

Definition set_users (f : list user -> list user) (s : state) : state :=
  {| users := f (users s); workflows := workflows s; executions := executions s;
     integrations := integrations s; listening := listening s;
     seed_pending := seed_pending s; registering := registering s;
     timers := timers s; clock := clock s |}.

Definition set_workflows (f : list workflow -> list workflow) (s : state) : state :=
  {| users := users s; workflows := f (workflows s); executions := executions s;
     integrations := integrations s; listening := listening s;
     seed_pending := seed_pending s; registering := registering s;
     timers := timers s; clock := clock s |}.

Definition set_executions (f : list execution -> list execution) (s : state) : state :=
  {| users := users s; workflows := workflows s; executions := f (executions s);
     integrations := integrations s; listening := listening s;
     seed_pending := seed_pending s; registering := registering s;
     timers := timers s; clock := clock s |}.

Definition set_integrations (f : list integration -> list integration) (s : state) : state :=
  {| users := users s; workflows := workflows s; executions := executions s;
     integrations := f (integrations s); listening := listening s;
     seed_pending := seed_pending s; registering := registering s;
     timers := timers s; clock := clock s |}.

Definition set_listening (b : bool) (s : state) : state :=
  {| users := users s; workflows := workflows s; executions := executions s;
     integrations := integrations s; listening := b;
     seed_pending := seed_pending s; registering := registering s;
     timers := timers s; clock := clock s |}.

Definition set_seed_pending (b : bool) (s : state) : state :=
  {| users := users s; workflows := workflows s; executions := executions s;
     integrations := integrations s; listening := listening s;
     seed_pending := b; registering := registering s;
     timers := timers s; clock := clock s |}.

Definition set_registering
    (f : list pending_registration -> list pending_registration) (s : state) : state :=
  {| users := users s; workflows := workflows s; executions := executions s;
     integrations := integrations s; listening := listening s;
     seed_pending := seed_pending s; registering := f (registering s);
     timers := timers s; clock := clock s |}.

Definition set_timers (f : list timer -> list timer) (s : state) : state :=
  {| users := users s; workflows := workflows s; executions := executions s;
     integrations := integrations s; listening := listening s;
     seed_pending := seed_pending s; registering := registering s;
     timers := f (timers s); clock := clock s |}.

Definition set_clock (t : Z) (s : state) : state :=
  {| users := users s; workflows := workflows s; executions := executions s;
     integrations := integrations s; listening := listening s;
     seed_pending := seed_pending s; registering := registering s;
     timers := timers s; clock := t |}.

(** ** An instance of the library interface

    A transparent stand-in for bcryptjs and jsonwebtoken: the hash is the
    password next to its salt, the token is the binary numeral that codes
    payload, secret and issue time.  It shows that [jwt_sound] can be met
    and lets the model run on concrete requests. *)
Module Plain.

Definition leaf : Type := bool + (Z + string).

Fixpoint to_tree (v : jsval) : gen_tree leaf :=
  match v with
  | JUndefined => GenNode 0 []
  | JNull => GenNode 1 []
  | JBool b => GenLeaf (inl b)
  | JNum n => GenLeaf (inr (inl n))
  | JStr s => GenLeaf (inr (inr s))
  | JArr items => GenNode 2 (List.map to_tree items)
  | JObj fields =>
      GenNode 3 (List.map (fun kv => match kv with
                                     | (k, x) => GenNode 4 [GenLeaf (inr (inr k)); to_tree x]
                                     end) fields)
  end.

Fixpoint of_tree (t : gen_tree leaf) : jsval :=
  match t with
  | GenLeaf (inl b) => JBool b
  | GenLeaf (inr (inl n)) => JNum n
  | GenLeaf (inr (inr s)) => JStr s
  | GenNode 0 _ => JUndefined
  | GenNode 1 _ => JNull
  | GenNode 2 ts => JArr (List.map of_tree ts)
  | GenNode 3 ts =>
      JObj (List.map (fun t => match t with
                               | GenNode _ [GenLeaf (inr (inr k)); tx] => (k, of_tree tx)
                               | _ => (EmptyString, JUndefined)
                               end) ts)
  | GenNode _ _ => JUndefined
  end.

Fixpoint of_to_tree (v : jsval) : of_tree (to_tree v) = v.
Proof.
  destruct v as [| | b | n | s | items | fields]; simpl; try reflexivity.
  - f_equal. induction items as [|x items IH]; simpl; [reflexivity|].
    rewrite of_to_tree, IH. reflexivity.
  - f_equal. induction fields as [|[k x] fields IH]; simpl; [reflexivity|].
    rewrite of_to_tree, IH. reflexivity.
Qed.

#[export] Instance jsval_eq_dec : EqDecision jsval.
Proof.
  intros x y. destruct (decide (to_tree x = to_tree y)) as [H|H].
  - left. rewrite <- (of_to_tree x), <- (of_to_tree y), H. reflexivity.
  - right. intros ->. apply H. reflexivity.
Defined.

#[export] Instance jsval_countable : Countable jsval :=
  inj_countable' to_tree of_tree of_to_tree.

#[export] Instance payload_eq_dec : EqDecision payload.
Proof. solve_decision. Defined.

#[export] Instance payload_countable : Countable payload.
Proof.
  refine (inj_countable' (fun p => (p_userId p, p_email p, p_role p))
            (fun t => {| p_userId := t.1.1; p_email := t.1.2; p_role := t.2 |}) _).
  intros []; reflexivity.
Defined.

Fixpoint numeral (p : positive) : string :=
  match p with
  | xH => "1"
  | xO q => String "0" (numeral q)
  | xI q => String "1" (numeral q)
  end.

Fixpoint of_numeral (s : string) : option positive :=
  match s with
  | EmptyString => None
  | String c rest =>
      match rest with
      | EmptyString => if Ascii.eqb c "1" then Some xH else None
      | _ =>
          match of_numeral rest with
          | None => None
          | Some q => if Ascii.eqb c "1" then Some (xI q)
                      else if Ascii.eqb c "0" then Some (xO q) else None
          end
      end
  end.

Definition sign (p : payload) (secret : string) (iat : Z) : string :=
  numeral (encode (p, secret, iat)).

Definition verify (token secret : string) (t : Z) : option payload :=
  match of_numeral token with
  | None => None
  | Some n =>
      match decode n with
      | Some (p, signed_with, iat) =>
          if String.eqb signed_with secret && (t <? iat + token_lifetime)
          then Some p else None
      | None => None
      end
  end.

Definition lib : crypto :=
  {| bcrypt_hash := fun pw salt => pw ++ "$" ++ salt;
     bcrypt_compare := fun pw h => String.prefix (pw ++ "$") h;
     jwt_sign := sign;
     jwt_verify := verify |}.

End Plain.

(** ** What a handler reads from its environment when it runs *)

Record env := {
  now : Z;          (* [new Date()], in milliseconds *)
  uuid : string;    (* [uuidv4()] *)
  salt : string;    (* the salt [bcrypt.hash(_, 12)] drew *)
  random50 : Z }.   (* [Math.floor(Math.random() * 50)] *)

Definition seconds (e : env) : Z := now e / 1000.

Inductive request :=
| PostRegister (b : gmap string jsval)
| PostLogin (b : gmap string jsval)
| GetWorkflows (authorization : option string)
| PostWorkflows (authorization : option string) (b : gmap string jsval)
| GetIntegrations (authorization : option string)
| PostIntegrations (authorization : option string) (b : gmap string jsval)
| GetTemplates (authorization : option string)
| PostDeploy (authorization : option string) (templateId : string)
| GetExecutions (authorization : option string)
| PostExecutions (authorization : option string) (workflowId : string).

Inductive auth_result :=
| Rejected (r : response)
| Next (user : payload).

(** What [bcryptjs] promises: a password matches every hash made from it. *)
Record bcrypt_sound (lib : crypto) : Prop := {
  bcrypt_compare_hash : forall pw salt,
    bcrypt_compare lib pw (bcrypt_hash lib pw salt) = true }.

(** The body of the answer of GET /api/system/stats.  [uptime] and [memory] are what
    [process.uptime()] and [process.memoryUsage()] report; the handler
    passes them on untouched, so their type is left open. *)
Record stats (R : Type) := {
  totalWorkflows : nat;
  totalExecutions : nat;
  totalIntegrations : nat;
  totalTemplates : nat;
  systemStatus : string;
  uptime : R;
  memory : R;
  timestamp : Z }.

Arguments totalWorkflows {R} _.
Arguments totalExecutions {R} _.
Arguments totalIntegrations {R} _.
Arguments totalTemplates {R} _.
Arguments systemStatus {R} _.
Arguments uptime {R} _.
Arguments memory {R} _.
Arguments timestamp {R} _.

Section Server.

Variable lib : crypto.
Variable env_JWT_SECRET : option string.      (* [process.env.JWT_SECRET] *)

Definition JWT_SECRET : string :=
  match env_JWT_SECRET with
  | Some s => if String.eqb s "" then "autoflow-secret-key-change-in-production" else s
  | None => "autoflow-secret-key-change-in-production"
  end.

(** [authHeader && authHeader.split(' ')[1]]; [None] is [undefined]. *)
Definition header_token (authHeader : option string) : option string :=
  match authHeader with
  | None => None
  | Some h => if String.eqb h "" then Some "" else split_space h !! 1%nat
  end.

Definition authenticateToken (authHeader : option string) (e : env) : auth_result :=
  match header_token authHeader with
  | None => Rejected (error 401 "Access token required")
  | Some token =>
      if String.eqb token "" then Rejected (error 401 "Access token required")
      else match jwt_verify lib token JWT_SECRET (seconds e) with
           | None => Rejected (error 403 "Invalid token")
           | Some user => Next user
           end
  end.

(** [app.METHOD(path, authenticateToken, handler)] *)
Definition protected (authHeader : option string)
    (handler : payload -> env -> state -> state * response)
    (e : env) (s : state) : state * response :=
  match authenticateToken authHeader e with
  | Rejected r => (s, r)
  | Next user => handler user e s
  end.

Definition view (u : user) : user_view :=
  {| uv_id := u_id u; uv_email := u_email u; uv_name := u_name u; uv_role := u_role u |}.

Definition token_for (u : user) (e : env) : string :=
  jwt_sign lib
    {| p_userId := JStr (u_id u); p_email := u_email u; p_role := JStr (u_role u) |}
    JWT_SECRET (seconds e).

(** *** POST /api/auth/register, up to [await bcrypt.hash(password, 12)].
    A password that is not a string makes [bcrypt.hash] reject; the
    [catch] answers 500 without touching the state. *)
Definition register_begin (b : gmap string jsval) (s : state) : state * list response :=
  let email := field b "email" in
  let password := field b "password" in
  let name := field b "name" in
  if negb (truthy email) || negb (truthy password) || negb (truthy name) then
    (s, [error 400 "Email, password, and name are required"])
  else
    match List.find (fun u => strict_eq (u_email u) email) (users s) with
    | Some _ => (s, [error 400 "User already exists"])
    | None =>
        match password with
        | JStr pw =>
            (set_registering
               (push {| pr_email := email; pr_name := name; pr_password := pw |}) s,
             [])
        | _ => (s, [error 500 "Internal server error"])
        end
    end.

(** *** POST /api/auth/register, from the resolution of the hash on. *)
Definition new_user (pr : pending_registration) (e : env) (s : state) : user :=
  {| u_id := uuid e;
     u_email := pr_email pr;
     u_name := pr_name pr;
     u_password := bcrypt_hash lib (pr_password pr) (salt e);
     u_role := if (length (users s) =? 0)%nat then "admin" else "user";
     u_createdAt := now e |}.

Definition register_finish (pr : pending_registration) (e : env) (s : state)
    : state * list response :=
  let user := new_user pr e s in
  (set_users (push user) s,
   [json 201 (BAuth "User created successfully" (token_for user e) (view user))]).

(** *** POST /api/auth/login.  The handler reads [users] once, before
    [await bcrypt.compare], and user objects are never mutated, so what it
    answers is fixed by the state it started in; it changes no state. *)
Definition login (b : gmap string jsval) (e : env) (s : state) : response :=
  let email := field b "email" in
  let password := field b "password" in
  if negb (truthy email) || negb (truthy password) then
    error 400 "Email and password are required"
  else
    match List.find (fun u => strict_eq (u_email u) email) (users s) with
    | None => error 401 "Invalid credentials"
    | Some user =>
        match password with
        | JStr pw =>
            if bcrypt_compare lib pw (u_password user) then
              json 200 (BAuth "Login successful" (token_for user e) (view user))
            else error 401 "Invalid credentials"
        | _ => error 500 "Internal server error"
        end
    end.

(** *** Workflow routes.  In the workflow, integration and template
    handlers nothing inside the [try] can throw on a parsed body, so the
    [catch] that answers 500 is not reached.  The two [new Date()] of one
    handler are one clock reading. *)
Definition get_workflows (user : payload) (e : env) (s : state) : state * response :=
  (s, json 200 (BWorkflows
        (List.filter (fun w => strict_eq (w_userId w) (p_userId user)) (workflows s)))).

Definition new_workflow (user : payload) (b : gmap string jsval) (e : env) : workflow :=
  {| w_id := uuid e;
     w_userId := p_userId user;
     w_name := field b "name";
     w_description := field b "description";
     w_trigger := field b "trigger";
     w_actions := js_or (field b "actions") (JArr []);
     w_status := "active";
     w_templateId := JUndefined;
     w_createdAt := now e;
     w_updatedAt := now e |}.

Definition post_workflows (b : gmap string jsval) (user : payload) (e : env) (s : state)
    : state * response :=
  let workflow := new_workflow user b e in
  (set_workflows (push workflow) s, json 201 (BWorkflow workflow)).

(** *** Integration routes *)
Definition get_integrations (user : payload) (e : env) (s : state) : state * response :=
  (s, json 200 (BIntegrations (integrations s))).

Definition new_integration (user : payload) (b : gmap string jsval) (e : env) : integration :=
  {| i_id := uuid e;
     i_userId := p_userId user;
     i_name := field b "name";
     i_type := field b "type";
     i_config := field b "config";
     i_status := "active";
     i_description := JUndefined;
     i_createdAt := Some (now e) |}.

Definition post_integrations (b : gmap string jsval) (user : payload) (e : env) (s : state)
    : state * response :=
  let integration := new_integration user b e in
  (set_integrations (push integration) s, json 201 (BIntegration integration)).

(** *** Template routes *)
Definition get_templates (user : payload) (e : env) (s : state) : state * response :=
  (s, json 200 (BTemplates templates)).

Definition deployed_workflow (user : payload) (t : template) (e : env) : workflow :=
  {| w_id := uuid e;
     w_userId := p_userId user;
     w_name := JStr (t_name t);
     w_description := JStr (t_description t);
     w_trigger := match t_triggers t with
                  | first :: _ => JStr first
                  | [] => JUndefined
                  end;
     w_actions := JArr (List.map JStr (t_actions t));
     w_status := "active";
     w_templateId := JStr (t_id t);
     w_createdAt := now e;
     w_updatedAt := now e |}.

Definition deploy (templateId : string) (user : payload) (e : env) (s : state)
    : state * response :=
  match List.find (fun t => String.eqb (t_id t) templateId) templates with
  | None => (s, error 404 "Template not found")
  | Some t =>
      let workflow := deployed_workflow user t e in
      (set_workflows (push workflow) s,
       json 201 (BDeployed "Template deployed successfully" workflow))
  end.

(** *** Execution routes.  The template literal that builds the first
    log line is inside the [try]: when converting the workflow's name
    throws, the [catch] answers 500 and nothing has been pushed yet. *)
Definition get_executions (user : payload) (e : env) (s : state) : state * response :=
  (s, json 200 (BExecutions
        (List.filter (fun x => strict_eq (e_userId x) (p_userId user)) (executions s)))).

(** The execution object, [name] being [`${workflow.name}`]. *)
Definition new_execution (user : payload) (workflowId : string) (name : string) (e : env)
    : execution :=
  {| e_id := uuid e;
     e_userId := p_userId user;
     e_workflowId := workflowId;
     e_status := "running";
     e_startedAt := now e;
     e_completedAt := None;
     e_logs := ["Execution started for workflow: " ++ name] |}.

Definition execution_delay : Z := 2000.

Definition post_executions (workflowId : string) (user : payload) (e : env) (s : state)
    : state * response :=
  match List.find (fun w => String.eqb (w_id w) workflowId
                            && strict_eq (w_userId w) (p_userId user)) (workflows s) with
  | None => (s, error 404 "Workflow not found")
  | Some w =>
      match js_to_string (w_name w) with
      | None => (s, error 500 "Failed to start execution")
      | Some name =>
          let execution := new_execution user workflowId name e in
          (set_timers
             (push {| tm_exec := length (executions s); tm_delay := execution_delay |})
             (set_executions (push execution) s),
           json 201 (BExecution execution))
      end
  end.

(** The [setTimeout] callback, run on the execution object it closed over. *)
Definition complete (e : env) (x : execution) : execution :=
  {| e_id := e_id x;
     e_userId := e_userId x;
     e_workflowId := e_workflowId x;
     e_status := "completed";
     e_startedAt := e_startedAt x;
     e_completedAt := Some (now e);
     e_logs := push ("Processed " ++ string_of_Z (random50 e + 1) ++ " items")
                 (push "Execution completed successfully" (e_logs x)) |}.

Definition timer_fired (tm : timer) (e : env) (s : state) : state :=
  set_executions (alter (complete e) (tm_exec tm)) s.

(** *** The [app.listen] callback and the continuation of its hash *)
Definition listen (s : state) : state :=
  set_listening true
    (if (length (users s) =? 0)%nat then set_seed_pending true s else s).

Definition default_admin (e : env) : user :=
  {| u_id := uuid e;
     u_email := JStr "admin@autoflow.com";
     u_name := JStr "AutoFlow Admin";
     u_password := bcrypt_hash lib "admin123" (salt e);
     u_role := "admin";
     u_createdAt := now e |}.

Definition seed_hashed (e : env) (s : state) : state :=
  set_seed_pending false (set_users (push (default_admin e)) s).

(** *** The router *)
Definition handle (r : request) (e : env) (s : state) : state * list response :=
  let one (x : state * response) := (fst x, [snd x]) in
  match r with
  | PostRegister b => register_begin b s
  | PostLogin b => (s, [login b e s])
  | GetWorkflows a => one (protected a get_workflows e s)
  | PostWorkflows a b => one (protected a (post_workflows b) e s)
  | GetIntegrations a => one (protected a get_integrations e s)
  | PostIntegrations a b => one (protected a (post_integrations b) e s)
  | GetTemplates a => one (protected a get_templates e s)
  | PostDeploy a templateId => one (protected a (deploy templateId) e s)
  | GetExecutions a => one (protected a get_executions e s)
  | PostExecutions a workflowId => one (protected a (post_executions workflowId) e s)
  end.

(** ** The event loop as a transition system

    An action is one run-to-completion turn of the event loop.  [step]
    gives [None] when the turn cannot happen in that state: a clock
    reading that goes backwards, a request before the server listens, the
    resolution of a hash nobody waits for, a timer that is not armed. *)
Inductive action :=
| Listen
| SeedHashed
| Req (r : request)
| RegisterHashed (k : nat)       (* the [k]-th suspended registration resumes *)
| TimerFired (k : nat).          (* the [k]-th armed timer fires *)

Definition step (a : action) (e : env) (s : state) : option (state * list response) :=
  if now e <? clock s then None
  else
    let s := set_clock (now e) s in
    match a with
    | Listen => if listening s then None else Some (listen s, [])
    | SeedHashed => if seed_pending s then Some (seed_hashed e s, []) else None
    | Req r => if listening s then Some (handle r e s) else None
    | RegisterHashed k =>
        match registering s !! k with
        | None => None
        | Some pr => Some (register_finish pr e (set_registering (delete k) s))
        end
    | TimerFired k =>
        match timers s !! k with
        | None => None
        | Some tm =>
            if (0 <=? random50 e) && (random50 e <? 50)
            then Some (timer_fired tm e (set_timers (delete k) s), [])
            else None
        end
    end.

(** A run: the state reached and every response sent, oldest first. *)
Fixpoint run (evs : list (action * env)) (s : state) : option (state * list response) :=
  match evs with
  | [] => Some (s, [])
  | (a, e) :: rest =>
      match step a e s with
      | None => None
      | Some (s1, out1) =>
          match run rest s1 with
          | None => None
          | Some (s2, out2) => Some (s2, (out1 ++ out2)%list)
          end
      end
  end.

Definition reachable (s : state) : Prop := exists evs out, run evs init = Some (s, out).



(** The [Authorization] header of a request to a route that is registered
    with [authenticateToken]; [None] for the two open routes. *)
Definition authorization (r : request) : option (option string) :=
  match r with
  | PostRegister _ | PostLogin _ => None
  | GetWorkflows a | PostWorkflows a _ | GetIntegrations a | PostIntegrations a _
  | GetTemplates a | PostDeploy a _ | GetExecutions a | PostExecutions a _ => Some a
  end.

(** The role carried by the answer of a successful registration. *)
Definition registered_role (r : response) : option string :=
  match body r with
  | BAuth _ _ u => if status r =? 201 then Some (uv_role u) else None
  | _ => None
  end.

Definition registered_roles (out : list response) : list string :=
  omap registered_role out.

(** ** The routes that only report *)

(** *** GET /: a fixed description of the platform, with the current
    sizes of [integrations] and [templates]. *)
Record root_info := {
  root_name : string;
  root_version : string;
  root_description : string;
  root_features : list string;
  root_integrations : nat;
  root_templates : nat;
  root_endpoints : list (string * string);
  root_status : string;
  root_documentation : string }.

Definition get_root (s : state) : root_info :=
  {| root_name := "AutoFlow Enterprise Platform";
     root_version := "1.0.0";
     root_description := "Complete automation platform with 25+ integrations";
     root_features :=
       [ "Visual Workflow Builder";
         "Enterprise Security (SSO, MFA, RBAC)";
         "25+ Pre-built Integrations";
         "Real-time Monitoring";
         "Custom Integration SDK";
         "Workflow Templates";
         "API Key Management" ];
     root_integrations := length (integrations s);
     root_templates := length templates;
     root_endpoints :=
       [ ("auth", "/api/auth");
         ("workflows", "/api/workflows");
         ("integrations", "/api/integrations");
         ("executions", "/api/executions");
         ("templates", "/api/templates") ];
     root_status := "operational";
     root_documentation := "Visit /api/docs for API documentation" |}.

(** *** GET /api/system/stats *)
Definition get_stats {R : Type} (process_uptime process_memory : R)
    (user : payload) (e : env) (s : state) : stats R :=
  {| totalWorkflows :=
       length (List.filter (fun w => strict_eq (w_userId w) (p_userId user)) (workflows s));
     totalExecutions :=
       length (List.filter (fun x => strict_eq (e_userId x) (p_userId user)) (executions s));
     totalIntegrations := length (integrations s);
     totalTemplates := length templates;
     systemStatus := "operational";
     uptime := process_uptime;
     memory := process_memory;
     timestamp := now e |}.

(** The route with its middleware: the middleware's refusal, or the stats. *)
Definition stats_route {R : Type} (process_uptime process_memory : R)
    (authHeader : option string) (e : env) (s : state) : response + stats R :=
  match authenticateToken authHeader e with
  | Rejected r => inl r
  | Next user => inr (get_stats process_uptime process_memory user e s)
  end.

(** ** Reading a run *)

(** The same request sent with another [Authorization] header. *)
Definition with_authorization (a : option string) (r : request) : request :=
  match r with
  | PostRegister b => PostRegister b
  | PostLogin b => PostLogin b
  | GetWorkflows _ => GetWorkflows a
  | PostWorkflows _ b => PostWorkflows a b
  | GetIntegrations _ => GetIntegrations a
  | PostIntegrations _ b => PostIntegrations a b
  | GetTemplates _ => GetTemplates a
  | PostDeploy _ templateId => PostDeploy a templateId
  | GetExecutions _ => GetExecutions a
  | PostExecutions _ workflowId => PostExecutions a workflowId
  end.

(** The record a 201 answer reports as created. *)
Definition created_workflow (r : response) : option workflow :=
  match body r with
  | BWorkflow w | BDeployed _ w => if status r =? 201 then Some w else None
  | _ => None
  end.

Definition created_integration (r : response) : option integration :=
  match body r with
  | BIntegration i => if status r =? 201 then Some i else None
  | _ => None
  end.

Definition created_execution (r : response) : option execution :=
  match body r with
  | BExecution x => if status r =? 201 then Some x else None
  | _ => None
  end.

(** What of an execution record the timer callback leaves alone. *)
Definition identity (x : execution) : string * jsval * string * Z :=
  (e_id x, e_userId x, e_workflowId x, e_startedAt x).

(** A value that [===] itself: anything but an array or an object. *)
Definition primitive (v : jsval) : bool := strict_eq v v.

(** ** Properties *)

(** *** The authentication middleware *)

Lemma protected_next authHeader user handler e s :
  authenticateToken authHeader e = Next user ->
  protected authHeader handler e s = handler user e s.
Proof. unfold protected. intros ->. reflexivity. Qed.






(** *** Workflows are listed per user *)

Lemma filter_push {A : Type} (f : A -> bool) (x : A) (l : list A) :
  List.filter f (push x l) = if f x then push x (List.filter f l) else List.filter f l.
Proof.
  unfold push. rewrite List.filter_app. simpl.
  destruct (f x); [reflexivity | apply app_nil_r].
Qed.

(** C2: the answer of GET /api/workflows to an authenticated user B is the
    sub-list of the workflow store whose [userId] is B's; a workflow that
    carries another user's id is not in it, and a workflow another user
    creates does not change it. *)
Theorem C2_own_workflows_only (authHeader : option string) (B : payload)
    (e : env) (s : state) :
  authenticateToken authHeader e = Next B ->
  exists ws,
    handle (GetWorkflows authHeader) e s = (s, [json 200 (BWorkflows ws)]) /\
    ws = List.filter (fun w => strict_eq (w_userId w) (p_userId B)) (workflows s) /\
    (forall w, In w ws <->
               In w (workflows s) /\ strict_eq (w_userId w) (p_userId B) = true) /\
    (forall A w, strict_eq (p_userId A) (p_userId B) = false ->
                 w_userId w = p_userId A -> ~ In w ws) /\
    (forall A b e1, strict_eq (p_userId A) (p_userId B) = false ->
                    snd (get_workflows B e (fst (post_workflows b A e1 s)))
                    = json 200 (BWorkflows ws)).
Proof.
  intros Hauth. eexists. split; [|split; [reflexivity|]].
  - simpl. rewrite (protected_next _ _ _ _ _ Hauth). reflexivity.
  - split; [|split].
    + intros w. apply List.filter_In.
    + intros A w Hne Hw Hin. apply List.filter_In in Hin as [_ Hin].
      rewrite Hw in Hin. congruence.
    + intros A b e1 Hne. simpl. rewrite filter_push. simpl. rewrite Hne. reflexivity.
Qed.

(** *** Deploying a template *)

Lemma find_template (t : template) :
  In t templates ->
  List.find (fun t' => String.eqb (t_id t') (t_id t)) templates = Some t.
Proof.
  unfold templates. simpl. intros [<- | [<- | []]]; reflexivity.
Qed.

(** C7: for every template of the catalogue, an authenticated POST
    /api/templates/:templateId/deploy with its id answers 201 and pushes
    one workflow that carries the template's name and description, status
    "active" and the requesting user's id. *)
Theorem C7_deploy_template (authHeader : option string) (user : payload)
    (t : template) (e : env) (s : state) :
  authenticateToken authHeader e = Next user ->
  In t templates ->
  exists w s',
    handle (PostDeploy authHeader (t_id t)) e s
      = (s', [json 201 (BDeployed "Template deployed successfully" w)]) /\
    workflows s' = push w (workflows s) /\
    users s' = users s /\ executions s' = executions s /\
    integrations s' = integrations s /\
    w_name w = JStr (t_name t) /\
    w_description w = JStr (t_description t) /\
    w_status w = "active" /\
    w_userId w = p_userId user.
Proof.
  intros Hauth Ht. exists (deployed_workflow user t e).
  exists (set_workflows (push (deployed_workflow user t e)) s).
  split.
  - simpl. rewrite (protected_next _ _ _ _ _ Hauth).
    unfold deploy. rewrite (find_template t Ht). reflexivity.
  - repeat split; reflexivity.
Qed.

(** *** Starting an execution of a workflow that is not there *)

(** C8: when the store holds no workflow with the requested id and the
    requesting user's id, an authenticated POST /api/executions/:workflowId
    answers 404 and leaves the whole state as it was: no execution is
    pushed and no timer is armed. *)
Theorem C8_execution_unknown_workflow (authHeader : option string) (user : payload)
    (workflowId : string) (e : env) (s : state) :
  authenticateToken authHeader e = Next user ->
  (forall w, In w (workflows s) -> w_id w = workflowId ->
             strict_eq (w_userId w) (p_userId user) = false) ->
  exists s',
    handle (PostExecutions authHeader workflowId) e s
      = (s', [error 404 "Workflow not found"]) /\
    s' = s /\ executions s' = executions s /\ timers s' = timers s.
Proof.
  intros Hauth Hnone. exists s. split; [|repeat split].
  simpl. rewrite (protected_next _ _ _ _ _ Hauth). unfold post_executions.
  destruct (List.find _ (workflows s)) as [w|] eqn:Hfind; [|reflexivity].
  apply List.find_some in Hfind as [Hin Hw].
  apply andb_prop in Hw as [Hid Hown].
  apply String.eqb_eq in Hid. rewrite (Hnone w Hin Hid) in Hown. discriminate.
Qed.

(** *** Creating a workflow *)

(** C9: every authenticated POST /api/workflows answers 201 and appends
    one workflow to the store, leaving every other store alone.  The
    workflow has a fresh id, the caller's user id and status "active"; its
    name, description and trigger are the body's properties of those names
    (undefined when absent) and its actions are the body's when truthy and
    the empty list otherwise; with an empty body all three are undefined
    and the actions are empty.  Whether authenticated or not, the route
    answers 201, 401 or 403, never 400. *)
Theorem C9_workflow_unvalidated (authHeader : option string)
    (b : gmap string jsval) (e : env) (s : state) :
  (forall user, authenticateToken authHeader e = Next user ->
     exists w s',
       handle (PostWorkflows authHeader b) e s = (s', [json 201 (BWorkflow w)]) /\
       workflows s' = (workflows s ++ [w])%list /\
       In w (workflows s') /\
       length (workflows s') = S (length (workflows s)) /\
       users s' = users s /\ integrations s' = integrations s /\
       executions s' = executions s /\ timers s' = timers s /\
       w_id w = uuid e /\
       w_status w = "active" /\
       w_userId w = p_userId user /\
       w_name w = default JUndefined (b !! "name") /\
       w_description w = default JUndefined (b !! "description") /\
       w_trigger w = default JUndefined (b !! "trigger") /\
       w_actions w = match b !! "actions" with
                     | Some (JArr items) => JArr items
                     | Some (JObj fields) => JObj fields
                     | Some (JStr a) => if String.eqb a "" then JArr [] else JStr a
                     | Some (JNum n) => if n =? 0 then JArr [] else JNum n
                     | Some (JBool true) => JBool true
                     | Some (JBool false) | Some JNull | Some JUndefined | None => JArr []
                     end /\
       w_templateId w = JUndefined /\
       w_createdAt w = now e /\ w_updatedAt w = now e /\
       (b = ∅ -> w_name w = JUndefined /\ w_description w = JUndefined /\
                 w_trigger w = JUndefined /\ w_actions w = JArr [])) /\
  (exists s' r, handle (PostWorkflows authHeader b) e s = (s', [r]) /\
                (status r = 201 \/ status r = 401 \/ status r = 403) /\
                status r <> 400).
Proof.
  split.
  - intros user Hauth. exists (new_workflow user b e).
    exists (set_workflows (push (new_workflow user b e)) s).
    split; [simpl; rewrite (protected_next _ _ _ _ _ Hauth); reflexivity|].
    split; [reflexivity|].
    split; [simpl; unfold push; apply in_or_app; right; left; reflexivity|].
    split; [simpl; unfold push; rewrite length_app; simpl; lia|].
    do 7 (split; [reflexivity|]).
    do 3 (split; [reflexivity|]).
    split.
    { simpl. unfold js_or, field.
      destruct (b !! "actions") as [[| | [|] | n | a | items | fields]|]; simpl;
        try reflexivity.
      - destruct (n =? 0); reflexivity.
      - destruct (String.eqb a ""); reflexivity. }
    do 3 (split; [reflexivity|]).
    intros ->. repeat split.
  - simpl. unfold protected, authenticateToken.
    destruct (header_token authHeader) as [token|];
      [destruct (String.eqb token "");
       [|destruct (jwt_verify lib token JWT_SECRET (seconds e))]|];
      simpl; eexists; eexists; (split; [reflexivity|]); simpl; split; try lia; auto.
Qed.

(** *** Integrations are shared *)

(** C10: GET /api/integrations answers every authenticated user with the
    whole integrations array.  An integration that user A creates is
    appended to that array, and is therefore, config included, in the
    answer to any user B, next to everything that was there before;
    whereas a workflow A creates is absent from B's GET /api/workflows
    when B is not A. *)
Theorem C10_integrations_visible_to_all (authA authB : option string)
    (A B : payload) (b : gmap string jsval) (eA eB : env) (s : state) :
  authenticateToken authA eA = Next A ->
  authenticateToken authB eB = Next B ->
  (forall s0, handle (GetIntegrations authB) eB s0
              = (s0, [json 200 (BIntegrations (integrations s0))])) /\
  exists i s1,
    handle (PostIntegrations authA b) eA s = (s1, [json 201 (BIntegration i)]) /\
    i_id i = uuid eA /\
    i_userId i = p_userId A /\
    i_name i = default JUndefined (b !! "name") /\
    i_type i = default JUndefined (b !! "type") /\
    i_config i = default JUndefined (b !! "config") /\
    i_status i = "active" /\
    integrations s1 = (integrations s ++ [i])%list /\
    (exists shown,
       handle (GetIntegrations authB) eB s1 = (s1, [json 200 (BIntegrations shown)]) /\
       shown = (integrations s ++ [i])%list /\
       In i shown /\
       (forall i0, In i0 (integrations s) -> In i0 shown) /\
       length shown = S (length (integrations s))) /\
    (strict_eq (p_userId A) (p_userId B) = false ->
     forall bw s2 rw,
       handle (PostWorkflows authA bw) eA s = (s2, [rw]) ->
       exists w ws,
         rw = json 201 (BWorkflow w) /\
         workflows s2 = (workflows s ++ [w])%list /\
         handle (GetWorkflows authB) eB s2 = (s2, [json 200 (BWorkflows ws)]) /\
         ~ In w ws).
Proof.
  intros HA HB. split.
  - intros s0. simpl. rewrite (protected_next _ _ _ _ _ HB). reflexivity.
  - exists (new_integration A b eA), (set_integrations (push (new_integration A b eA)) s).
    split; [simpl; rewrite (protected_next _ _ _ _ _ HA); reflexivity|].
    do 7 (split; [reflexivity|]). split.
    + exists (integrations s ++ [new_integration A b eA])%list.
      split; [simpl; rewrite (protected_next _ _ _ _ _ HB); reflexivity|].
      split; [reflexivity|].
      split; [apply in_or_app; right; left; reflexivity|].
      split; [intros i0 Hi0; apply in_or_app; left; exact Hi0|].
      rewrite length_app. simpl. lia.
    + intros Hne bw s2 rw. simpl.
      rewrite (protected_next _ _ _ _ _ HA). unfold post_workflows. simpl.
      intros [= <- <-]. eexists. eexists. split; [reflexivity|].
      split; [reflexivity|]. split.
      * rewrite (protected_next _ _ _ _ _ HB). reflexivity.
      * simpl. rewrite filter_push. simpl. rewrite Hne.
        intros Hin. apply List.filter_In in Hin as [_ Hin]. simpl in Hin. congruence.
Qed.

(** *** Logging in *)

Lemma split_space_bearer_token (token : string) :
  split_space ("Bearer " ++ token) = "Bearer" :: split_space token.
Proof. reflexivity. Qed.

Lemma authenticate_signed (p : payload) (iat : Z) (e : env) :
  jwt_sound lib ->
  seconds e < iat + token_lifetime ->
  authenticateToken (Some ("Bearer " ++ jwt_sign lib p JWT_SECRET iat)) e = Next p.
Proof.
  intros Hjwt Hfresh. unfold authenticateToken, header_token.
  change (String.eqb ("Bearer " ++ _) "") with false. cbv iota.
  rewrite split_space_bearer_token, (jwt_sign_word lib Hjwt). simpl.
  destruct (String.eqb_spec (jwt_sign lib p JWT_SECRET iat) "") as [Hempty|_].
  - exfalso. exact (jwt_sign_nonempty lib Hjwt _ _ _ Hempty).
  - rewrite (jwt_verify_sign lib Hjwt) by exact Hfresh. reflexivity.
Qed.

(** A value is falsy exactly when it is undefined (an absent property),
    null, false, 0 or the empty string. *)
Lemma falsy_values (v : jsval) :
  truthy v = false <->
  v = JUndefined \/ v = JNull \/ v = JBool false \/ v = JNum 0 \/ v = JStr "".
Proof.
  split.
  - destruct v as [| | [|] | n | x | |]; simpl; try discriminate; auto.
    + destruct (Z.eqb_spec n 0) as [->|]; [auto 6 | discriminate].
    + destruct (String.eqb_spec x "") as [->|]; [auto 6 | discriminate].
  - intros [-> | [-> | [-> | [-> | ->]]]]; reflexivity.
Qed.

(** C6, as the code has it: the answer is 400 when the email or the
    password of the body is missing or falsy, that is absent, null, false,
    0 or the empty string.  With both truthy the answer is 401 when no
    user has the email; and when a user has it and the password is a
    string, the answer is 401 when [bcrypt.compare] reports that the
    password does not match the hash of the first user with that email,
    and on a match 200 with a token that the authentication middleware
    accepts on every protected route, handing the handler that user's id,
    until the token's 24 hours are over.  The state is never changed. *)
Theorem C6_login_credentials (b : gmap string jsval) (e : env) (s : state) :
  jwt_sound lib ->
  let falsy v :=
    v = None \/ v = Some JUndefined \/ v = Some JNull \/ v = Some (JBool false) \/
    v = Some (JNum 0) \/ v = Some (JStr "") in
  exists r,
    handle (PostLogin b) e s = (s, [r]) /\
    (falsy (b !! "email") \/ falsy (b !! "password") ->
     r = error 400 "Email and password are required") /\
    (forall email password,
       b !! "email" = Some email -> b !! "password" = Some password ->
       ~ falsy (Some email) -> ~ falsy (Some password) ->
       match List.find (fun u => strict_eq (u_email u) email) (users s) with
       | None => r = error 401 "Invalid credentials"
       | Some user =>
           forall pw, password = JStr pw ->
             if bcrypt_compare lib pw (u_password user) then
               exists token,
                 r = json 200 (BAuth "Login successful" token (view user)) /\
                 token = jwt_sign lib {| p_userId := JStr (u_id user);
                                         p_email := u_email user;
                                         p_role := JStr (u_role user) |}
                           JWT_SECRET (seconds e) /\
                 forall e1 handler s1,
                   seconds e1 < seconds e + token_lifetime ->
                   protected (Some ("Bearer " ++ token)) handler e1 s1
                   = handler {| p_userId := JStr (u_id user);
                                p_email := u_email user;
                                p_role := JStr (u_role user) |} e1 s1
             else r = error 401 "Invalid credentials"
       end).
Proof.
  intros Hjwt falsy. exists (login b e s). split; [reflexivity|].
  assert (forall k, falsy (b !! k) <-> truthy (field b k) = false) as Hfalsy.
  { intros k. unfold falsy, field. rewrite falsy_values.
    destruct (b !! k) as [v|]; simpl; split.
    - intros [H | [H | [H | [H | [H | H]]]]]; inversion H; auto 6.
    - intros [-> | [-> | [-> | [-> | ->]]]]; auto 7.
    - auto.
    - auto. }
  unfold login. split.
  - intros [H | H]; apply Hfalsy in H; rewrite H; [reflexivity|].
    rewrite orb_true_r. reflexivity.
  - intros email password Hemail Hpassword He Hp.
    rewrite <- Hemail in He. rewrite <- Hpassword in Hp.
    rewrite Hfalsy in He, Hp.
    apply not_false_is_true in He, Hp. rewrite He, Hp. simpl.
    unfold field. rewrite Hemail, Hpassword. simpl.
    destruct (List.find _ (users s)) as [user|]; [|reflexivity].
    intros pw ->.
    destruct (bcrypt_compare lib pw (u_password user)); [|reflexivity].
    eexists. split; [reflexivity|]. split; [reflexivity|].
    intros e1 handler s1 Hfresh. apply protected_next.
    apply authenticate_signed; assumption.
Qed.

(** *** Which role a registration gets *)

Lemma rejected_is_error authHeader e r :
  authenticateToken authHeader e = Rejected r -> exists st msg, r = error st msg.
Proof.
  unfold authenticateToken.
  destruct (header_token authHeader) as [token|];
    [destruct (String.eqb token "");
     [|destruct (jwt_verify lib token JWT_SECRET (seconds e))]|];
    intros [= <-]; eauto.
Qed.

Ltac route_cases :=
  unfold handle, protected, register_begin, login,
    get_workflows, post_workflows, get_integrations, post_integrations,
    get_templates, deploy, get_executions, post_executions;
  repeat match goal with
         | |- context [match ?x with _ => _ end] => destruct x eqn:?
         end;
  repeat match goal with
         | H : authenticateToken _ _ = Rejected _ |- _ =>
             apply rejected_is_error in H as (? & ? & ->)
         end;
  simpl.

Lemma handle_users r e s : users (fst (handle r e s)) = users s.
Proof. destruct r; route_cases; reflexivity. Qed.

Lemma handle_registered_roles r e s : registered_roles (snd (handle r e s)) = [].
Proof. destruct r; route_cases; reflexivity. Qed.

Lemma push_not_nil {A : Type} (x : A) (l : list A) : push x l <> [].
Proof. unfold push. destruct l; discriminate. Qed.

Lemma register_hashed_role k e s s' out :
  step (RegisterHashed k) e s = Some (s', out) ->
  exists u,
    users s' = push u (users s) /\
    registered_roles out = [u_role u] /\
    u_role u = (if (length (users s) =? 0)%nat then "admin" else "user").
Proof.
  unfold step. destruct (now e <? clock s); [discriminate|]. simpl.
  destruct (registering s !! k) as [pr|]; [|discriminate].
  intros [= <- <-]. eexists. split; [reflexivity|]. split; reflexivity.
Qed.

(** One turn of the event loop either sends no registration answer and
    keeps a non-empty user store non-empty, or completes one registration. *)
Lemma step_registration a e s s' out :
  step a e s = Some (s', out) ->
  (registered_roles out = [] /\ (users s <> [] -> users s' <> [])) \/
  (exists u, users s' = push u (users s) /\
             registered_roles out = [u_role u] /\
             u_role u = (if (length (users s) =? 0)%nat then "admin" else "user")).
Proof.
  intros Hstep. destruct a as [| | r | k | k];
    try (right; eapply register_hashed_role; exact Hstep); left;
    revert Hstep; unfold step; destruct (now e <? clock s); try discriminate; simpl.
  - destruct (listening s); [discriminate|]. intros [= <- <-]. split; [reflexivity|].
    unfold listen. simpl. destruct (_ =? _)%nat; simpl; auto.
  - destruct (seed_pending s); [|discriminate]. intros [= <- <-].
    split; [reflexivity|]. intros _. apply push_not_nil.
  - destruct (listening s); [|discriminate]. intros [= Hs].
    pose proof (handle_users r e (set_clock (now e) s)) as Hu.
    pose proof (handle_registered_roles r e (set_clock (now e) s)) as Hr.
    rewrite Hs in Hu, Hr. simpl in Hu, Hr. rewrite Hu. auto.
  - destruct (timers s !! k) as [tm|]; [|discriminate].
    destruct (_ && _); [|discriminate]. intros [= <- <-]. auto.
Qed.

Lemma registered_roles_app out1 out2 :
  registered_roles (out1 ++ out2)%list = (registered_roles out1 ++ registered_roles out2)%list.
Proof. unfold registered_roles. apply omap_app. Qed.

Lemma run_nonempty_store evs : forall s s' out,
  users s <> [] -> run evs s = Some (s', out) ->
  users s' <> [] /\ Forall (eq "user") (registered_roles out).
Proof.
  induction evs as [|[a e] evs IH]; simpl; intros s s' out Hne.
  - intros [= <- <-]. split; [assumption | constructor].
  - destruct (step a e s) as [[s1 out1]|] eqn:Hstep; [|discriminate].
    destruct (run evs s1) as [[s2 out2]|] eqn:Hrun; [|discriminate].
    intros [= <- <-]. rewrite registered_roles_app.
    destruct (step_registration _ _ _ _ _ Hstep) as [[Hout Hkeep] | (u & Hu & Hout & Hrole)].
    + destruct (IH _ _ _ (Hkeep Hne) Hrun) as [? ?]. rewrite Hout. auto.
    + assert (users s1 <> []) as Hne1 by (rewrite Hu; apply push_not_nil).
      destruct (IH _ _ _ Hne1 Hrun) as [? ?]. rewrite Hout. split; [assumption|].
      simpl. constructor; [|assumption].
      rewrite Hrole. destruct (users s); [contradiction | reflexivity].
Qed.

Lemma run_first_registration evs : forall s s' out,
  run evs s = Some (s', out) ->
  forall r rest, registered_roles out = r :: rest ->
    (r = "admin" \/ r = "user") /\ Forall (eq "user") rest.
Proof.
  induction evs as [|[a e] evs IH]; simpl; intros s s' out.
  - intros [= <- <-] r rest [=].
  - destruct (step a e s) as [[s1 out1]|] eqn:Hstep; [|discriminate].
    destruct (run evs s1) as [[s2 out2]|] eqn:Hrun; [|discriminate].
    intros [= <- <-] r rest. rewrite registered_roles_app.
    destruct (step_registration _ _ _ _ _ Hstep) as [[Hout _] | (u & Hu & Hout & Hrole)];
      rewrite Hout; simpl.
    + apply (IH _ _ _ Hrun).
    + intros [= <- <-]. split.
      * rewrite Hrole. destruct (length (users s) =? 0)%nat; auto.
      * assert (users s1 <> []) as Hne1 by (rewrite Hu; apply push_not_nil).
        apply (run_nonempty_store _ _ _ _ Hne1 Hrun).
Qed.

(** C1, as the code has it: a completed registration creates a user with
    role "admin" exactly when the user store is empty at the moment the
    record is built, and "user" otherwise.  The start-up callback pushes a
    default admin; from a non-empty store on, every completed registration
    creates a "user".  Over a run from the initial state, all completed
    registrations but the first create a "user", and the first creates an
    "admin" or a "user". *)
Theorem C1_role_by_store :
  (forall k e s s' out,
     step (RegisterHashed k) e s = Some (s', out) ->
     exists u, users s' = push u (users s) /\
               registered_roles out = [u_role u] /\
               u_role u = (if (length (users s) =? 0)%nat then "admin" else "user")) /\
  (forall e s s' out,
     step SeedHashed e s = Some (s', out) ->
     users s' <> [] /\ registered_roles out = []) /\
  (forall evs s s' out,
     users s <> [] -> run evs s = Some (s', out) ->
     users s' <> [] /\ Forall (eq "user") (registered_roles out)) /\
  (forall evs s' out,
     run evs init = Some (s', out) ->
     forall r rest, registered_roles out = r :: rest ->
       (r = "admin" \/ r = "user") /\ Forall (eq "user") rest).
Proof.
  split; [exact register_hashed_role|]. split; [|split].
  - intros e s s' out. unfold step. destruct (now e <? clock s); [discriminate|]. simpl.
    destruct (seed_pending s); [|discriminate]. intros [= <- <-].
    split; [apply push_not_nil | reflexivity].
  - intros evs. apply run_nonempty_store.
  - intros evs. apply run_first_registration.
Qed.

(** *** The life of an execution *)

(** The invariant that ties the [executions] array to the armed timers:
    timers close over distinct executions; the execution of an armed timer
    is running and the timer was given the fixed delay; an execution is
    either running with its timer armed, or completed with the time of
    its completion. *)
Record lifecycle (s : state) : Prop := {
  lc_distinct : forall j k a b,
    timers s !! j = Some a -> timers s !! k = Some b ->
    tm_exec a = tm_exec b -> j = k;
  lc_timer : forall k tm,
    timers s !! k = Some tm ->
    exists x, executions s !! tm_exec tm = Some x /\
              e_status x = "running" /\
              tm_delay tm = execution_delay;
  lc_exec : forall i x,
    executions s !! i = Some x ->
    (e_status x = "running" /\ e_completedAt x = None /\
     exists k tm, timers s !! k = Some tm /\ tm_exec tm = i) \/
    (e_status x = "completed" /\ exists t, e_completedAt x = Some t) }.

Lemma lifecycle_init : lifecycle init.
Proof. split; simpl; intros; discriminate. Qed.

Lemma lifecycle_same s s' :
  executions s' = executions s -> timers s' = timers s ->
  lifecycle s -> lifecycle s'.
Proof.
  intros He Ht [H1 H2 H3]. split; rewrite ?He, ?Ht; assumption.
Qed.

Lemma lifecycle_armed (user : payload) (workflowId : string) (name : string)
    (e : env) (s : state) :
  lifecycle s ->
  lifecycle
    (set_timers
       (push {| tm_exec := length (executions s); tm_delay := execution_delay |})
       (set_executions (push (new_execution user workflowId name e)) s)).
Proof.
  intros [Hd Ht Hx]. split; simpl; unfold push.
  - intros j k a b Ha Hb Heq.
    apply lookup_snoc_Some in Ha as [[_ Ha] | [-> <-]];
      apply lookup_snoc_Some in Hb as [[_ Hb] | [-> <-]].
    + eapply Hd; eassumption.
    + destruct (Ht _ _ Ha) as (x & Hlook & _). apply lookup_lt_Some in Hlook.
      simpl in Heq. lia.
    + destruct (Ht _ _ Hb) as (x & Hlook & _). apply lookup_lt_Some in Hlook.
      simpl in Heq. lia.
    + reflexivity.
  - intros k tm Hk. apply lookup_snoc_Some in Hk as [[_ Hk] | [-> <-]].
    + destruct (Ht _ _ Hk) as (x & Hlook & Hrun & Hdue).
      exists x. split; [apply lookup_app_l_Some, Hlook | auto].
    + eexists. split; [apply list_lookup_middle; reflexivity|]. split; reflexivity.
  - intros i x Hi. apply lookup_snoc_Some in Hi as [[_ Hi] | [-> <-]].
    + destruct (Hx _ _ Hi) as [(Hrun & Hnone & k & tm & Hk & Hidx) | Hdone]; [left | right; exact Hdone].
      split; [exact Hrun|]. split; [exact Hnone|].
      exists k, tm. split; [apply lookup_app_l_Some, Hk | exact Hidx].
    + left. split; [reflexivity|]. split; [reflexivity|].
      eexists. eexists. split; [apply list_lookup_middle; reflexivity | reflexivity].
Qed.

Lemma lifecycle_fired (k : nat) (tm : timer) (e : env) (s : state) :
  timers s !! k = Some tm ->
  lifecycle s ->
  lifecycle (timer_fired tm e (set_timers (delete k) s)).
Proof.
  intros Hk [Hd Ht Hx].
  assert (forall j a, delete k (timers s) !! j = Some a ->
            exists j', timers s !! j' = Some a /\ j' <> k /\
                       j' = if decide (j < k)%nat then j else S j) as Hdel.
  { intros j a. rewrite list_lookup_delete. intros Ha. eexists. split; [exact Ha|].
    split; [|reflexivity]. case_decide; lia. }
  split; simpl.
  - intros j1 j2 a b Ha Hb Heq.
    destruct (Hdel _ _ Ha) as (j1' & Ha' & _ & E1).
    destruct (Hdel _ _ Hb) as (j2' & Hb' & _ & E2).
    pose proof (Hd _ _ _ _ Ha' Hb' Heq) as E. subst j1' j2'.
    repeat case_decide; lia.
  - intros j a Ha. destruct (Hdel _ _ Ha) as (j' & Ha' & Hne & _).
    destruct (Ht _ _ Ha') as (x & Hlook & Hrest). exists x. split; [|exact Hrest].
    rewrite list_lookup_alter_ne; [exact Hlook|].
    intros Heq. apply Hne. symmetry. eapply Hd; eassumption.
  - intros i x'. destruct (decide (tm_exec tm = i)) as [<- | Hne].
    + rewrite list_lookup_alter_eq.
      destruct (Ht _ _ Hk) as (x & Hlook & _). rewrite Hlook. simpl.
      intros [= <-]. right. split; [reflexivity|]. simpl.
      eexists. reflexivity.
    + rewrite list_lookup_alter_ne by exact Hne. intros Hi.
      destruct (Hx _ _ Hi) as [(Hrun & Hnone & k' & tm' & Hk' & Hidx) | Hdone];
        [left | right; exact Hdone].
      split; [exact Hrun|]. split; [exact Hnone|].
      assert (k' <> k) as Hkk.
      { intros ->. rewrite Hk in Hk'. injection Hk' as <-. contradiction. }
      exists (if decide (k' < k)%nat then k' else pred k'), tm'.
      split; [|exact Hidx]. rewrite list_lookup_delete.
      repeat case_decide; try lia; try exact Hk'.
      replace (S (pred k')) with k' by lia. exact Hk'.
Qed.

Lemma handle_lifecycle r e s : lifecycle s -> lifecycle (fst (handle r e s)).
Proof.
  intros Hs. destruct r; route_cases;
    try (eapply lifecycle_same; [| |exact Hs]; reflexivity).
  apply lifecycle_armed, Hs.
Qed.

Lemma step_lifecycle a e s s' out :
  step a e s = Some (s', out) -> lifecycle s -> lifecycle s'.
Proof.
  intros Hstep Hs.
  assert (lifecycle (set_clock (now e) s)) as Hc
    by (eapply lifecycle_same; [| |exact Hs]; reflexivity).
  revert Hstep. unfold step. destruct (now e <? clock s); [discriminate|].
  destruct a as [| | r | k | k]; simpl.
  - destruct (listening s); [discriminate|]. intros [= <- <-].
    eapply lifecycle_same; [| |exact Hs]; unfold listen; simpl;
      destruct (_ =? _)%nat; reflexivity.
  - destruct (seed_pending s); [|discriminate]. intros [= <- <-].
    eapply lifecycle_same; [| |exact Hs]; reflexivity.
  - destruct (listening s); [|discriminate]. intros [= Hh].
    pose proof (handle_lifecycle r e _ Hc) as Hl. rewrite Hh in Hl. exact Hl.
  - destruct (registering s !! k); [|discriminate]. intros [= <- <-].
    eapply lifecycle_same; [| |exact Hs]; reflexivity.
  - destruct (timers s !! k) as [tm|] eqn:Hk; [|discriminate].
    destruct (_ && _); [|discriminate]. intros [= <- <-].
    apply (lifecycle_fired k tm e (set_clock (now e) s)); [exact Hk | exact Hc].
Qed.

Lemma run_lifecycle evs : forall s s' out,
  run evs s = Some (s', out) -> lifecycle s -> lifecycle s'.
Proof.
  induction evs as [|[a e] evs IH]; simpl; intros s s' out.
  - intros [= <- <-]. auto.
  - destruct (step a e s) as [[s1 out1]|] eqn:Hstep; [|discriminate].
    destruct (run evs s1) as [[s2 out2]|] eqn:Hrun; [|discriminate].
    intros [= <- <-] Hs. eapply IH; [exact Hrun|]. eapply step_lifecycle; eassumption.
Qed.

Lemma reachable_lifecycle s : reachable s -> lifecycle s.
Proof.
  intros (evs & out & Hrun). eapply run_lifecycle; [exact Hrun | apply lifecycle_init].
Qed.

Lemma rejected_status authHeader e r :
  authenticateToken authHeader e = Rejected r -> status r = 401 \/ status r = 403.
Proof.
  unfold authenticateToken.
  destruct (header_token authHeader) as [token|];
    [destruct (String.eqb token "");
     [|destruct (jwt_verify lib token JWT_SECRET (seconds e))]|];
    intros [= <-]; auto.
Qed.

Lemma post_executions_created authHeader workflowId e s s' r :
  handle (PostExecutions authHeader workflowId) e s = (s', [r]) ->
  status r = 201 ->
  exists x,
    r = json 201 (BExecution x) /\
    e_status x = "running" /\
    executions s' = (executions s ++ [x])%list /\
    timers s' = (timers s ++ [{| tm_exec := length (executions s);
                                 tm_delay := 2000 |}])%list.
Proof.
  simpl. unfold protected.
  destruct (authenticateToken authHeader e) as [r0|user] eqn:Hauth; simpl.
  - intros [= <- <-] Hst. apply rejected_status in Hauth. lia.
  - unfold post_executions. destruct (List.find _ (workflows s)) as [w|]; simpl.
    + destruct (js_to_string (w_name w)) as [name|]; simpl.
      * intros [= <- <-] _. eexists. repeat split.
      * intros [= <- <-] Hst. discriminate Hst.
    + intros [= <- <-] Hst. discriminate Hst.
Qed.

Lemma handle_executions r e s :
  executions (fst (handle r e s)) = executions s \/
  exists y, executions (fst (handle r e s)) = push y (executions s).
Proof. destruct r; route_cases; eauto. Qed.

Lemma step_completed_stays a e s s' out i x :
  step a e s = Some (s', out) ->
  executions s !! i = Some x -> e_status x = "completed" ->
  exists x', executions s' !! i = Some x' /\ e_status x' = "completed".
Proof.
  intros Hstep Hi Hdone. revert Hstep. unfold step.
  destruct (now e <? clock s); [discriminate|].
  destruct a as [| | r | k | k]; simpl.
  - destruct (listening s); [discriminate|]. intros [= <- <-].
    unfold listen. simpl. destruct (_ =? _)%nat; simpl; eauto.
  - destruct (seed_pending s); [|discriminate]. intros [= <- <-]. simpl. eauto.
  - destruct (listening s); [|discriminate]. intros [= Hh].
    pose proof (handle_executions r e (set_clock (now e) s)) as Hx.
    rewrite Hh in Hx. simpl in Hx. destruct Hx as [-> | [y ->]].
    + eauto.
    + exists x. split; [apply lookup_app_l_Some, Hi | exact Hdone].
  - destruct (registering s !! k); [|discriminate]. intros [= <- <-]. simpl. eauto.
  - destruct (timers s !! k) as [tm|]; [|discriminate].
    destruct (_ && _); [|discriminate]. intros [= <- <-]. simpl.
    destruct (decide (tm_exec tm = i)) as [-> | Hne].
    + rewrite list_lookup_alter_eq, Hi. simpl. eauto.
    + rewrite list_lookup_alter_ne by exact Hne. eauto.
Qed.

Lemma run_completed_stays evs : forall s s' out i x,
  run evs s = Some (s', out) ->
  executions s !! i = Some x -> e_status x = "completed" ->
  exists x', executions s' !! i = Some x' /\ e_status x' = "completed".
Proof.
  induction evs as [|[a e] evs IH]; simpl; intros s s' out i x.
  - intros [= <- <-]. eauto.
  - destruct (step a e s) as [[s1 out1]|] eqn:Hstep; [|discriminate].
    destruct (run evs s1) as [[s2 out2]|] eqn:Hrun; [|discriminate].
    intros [= <- <-] Hi Hdone.
    destruct (step_completed_stays _ _ _ _ _ _ _ Hstep Hi Hdone) as (x1 & Hi1 & Hdone1).
    eapply IH; eassumption.
Qed.

Lemma timer_fires k tm e s s' out :
  lifecycle s ->
  timers s !! k = Some tm ->
  step (TimerFired k) e s = Some (s', out) ->
  timers s' = delete k (timers s) /\
  exists x x',
    executions s !! tm_exec tm = Some x /\
    executions s' !! tm_exec tm = Some x' /\
    e_status x' = "completed" /\ e_id x' = e_id x.
Proof.
  intros Hs Hk. unfold step. destruct (now e <? clock s); [discriminate|]. simpl.
  rewrite Hk. destruct (_ && _); [|discriminate]. intros [= <- <-].
  split; [reflexivity|]. simpl.
  destruct (lc_timer s Hs _ _ Hk) as (x & Hlook & _).
  exists x, (complete e x). rewrite list_lookup_alter_eq, Hlook. repeat split.
Qed.

Lemma timer_can_fire k tm e s :
  timers s !! k = Some tm ->
  clock s <= now e -> 0 <= random50 e < 50 ->
  exists s', step (TimerFired k) e s = Some (s', []).
Proof.
  intros Hk Hclock Hrand. unfold step.
  destruct (Z.ltb_spec (now e) (clock s)); [lia|]. simpl. rewrite Hk.
  destruct (Z.leb_spec 0 (random50 e)); [|lia].
  destruct (Z.ltb_spec (random50 e) 50); [|lia]. simpl. eauto.
Qed.

(** C3: in every state the server can reach, a successful POST
    /api/executions/:workflowId answers with an execution whose status is
    "running", appends that execution to the store and arms one timer for
    it with the fixed delay of 2000 ms; an armed timer belongs to a
    running execution, its callback can run, and when it runs that
    execution's status becomes "completed" and stays so; an execution's
    status is never anything but "running" (its timer still armed) or
    "completed".  The delay is the one handed to [setTimeout]; no reading
    of [new Date()] is tied to it. *)
Theorem C3_execution_lifecycle (s : state) :
  reachable s ->
  (forall authHeader workflowId e s' r,
     handle (PostExecutions authHeader workflowId) e s = (s', [r]) ->
     status r = 201 ->
     exists x,
       r = json 201 (BExecution x) /\
       e_status x = "running" /\
       executions s' = (executions s ++ [x])%list /\
       timers s' = (timers s ++ [{| tm_exec := length (executions s);
                                    tm_delay := 2000 |}])%list) /\
  (forall k tm,
     timers s !! k = Some tm ->
     tm_delay tm = 2000 /\
     (exists x, executions s !! tm_exec tm = Some x /\ e_status x = "running") /\
     (forall e s' out,
        step (TimerFired k) e s = Some (s', out) ->
        timers s' = delete k (timers s) /\
        exists x x',
          executions s !! tm_exec tm = Some x /\
          executions s' !! tm_exec tm = Some x' /\
          e_status x' = "completed" /\ e_id x' = e_id x) /\
     (forall e,
        clock s <= now e -> 0 <= random50 e < 50 ->
        exists s', step (TimerFired k) e s = Some (s', []))) /\
  (forall i x,
     executions s !! i = Some x ->
     (e_status x = "running" /\ exists k tm, timers s !! k = Some tm /\ tm_exec tm = i) \/
     e_status x = "completed") /\
  (forall evs s' out i x,
     run evs s = Some (s', out) ->
     executions s !! i = Some x -> e_status x = "completed" ->
     exists x', executions s' !! i = Some x' /\ e_status x' = "completed").
Proof.
  intros Hreach. pose proof (reachable_lifecycle s Hreach) as Hs.
  split; [|split; [|split]].
  - intros authHeader workflowId e s' r. apply post_executions_created.
  - intros k tm Hk. destruct (lc_timer s Hs _ _ Hk) as (x & Hx & Hrunning & Hdelay).
    split; [exact Hdelay|]. split; [exists x; split; assumption|]. split.
    + intros e s' out. apply timer_fires; assumption.
    + intros e. exact (timer_can_fire k tm e s Hk).
  - intros i x Hi.
    destruct (lc_exec s Hs _ _ Hi) as [(Hrun & _ & Harmed) | (Hdone & _)]; auto.
  - intros evs. apply run_completed_stays.
Qed.

(** *** Registering an email twice *)

(** No two user records have [===] emails. *)
Definition emails_unique (l : list user) : Prop :=
  forall i j a b,
    l !! i = Some a -> l !! j = Some b ->
    strict_eq (u_email a) (u_email b) = true -> i = j.

Lemma strict_eq_sym a b : strict_eq a b = strict_eq b a.
Proof.
  destruct a, b; simpl; try reflexivity.
  - destruct b, b0; reflexivity.
  - apply Z.eqb_sym.
  - apply String.eqb_sym.
Qed.

(** A registration that finds its email in the store is answered 400 and
    changes nothing. *)
Lemma register_existing_email b e s u :
  In u (users s) ->
  strict_eq (u_email u) (field b "email") = true ->
  exists msg, handle (PostRegister b) e s = (s, [error 400 msg]).
Proof.
  intros Hin Heq. simpl. unfold register_begin.
  destruct (_ || _); [eauto|].
  destruct (List.find _ (users s)) eqn:Hfind; [eauto|].
  apply (List.find_none _ _ Hfind) in Hin. simpl in Hin. congruence.
Qed.

(** A registration that runs from its check to its push with no other
    push in between keeps the emails unique. *)
Lemma register_alone_keeps_unique b e s s1 s2 out :
  emails_unique (users s) ->
  registering s = [] ->
  register_begin b s = (s1, []) ->
  step (RegisterHashed 0) e s1 = Some (s2, out) ->
  emails_unique (users s2).
Proof.
  intros Huniq Hnone. unfold register_begin.
  destruct (_ || _); [discriminate|].
  destruct (List.find _ (users s)) eqn:Hfind; [discriminate|].
  destruct (field b "password") eqn:Hpw; try discriminate.
  intros [= <-]. unfold step. simpl. destruct (now e <? clock s); [discriminate|].
  simpl. rewrite Hnone. simpl. intros [= <- <-]. simpl.
  assert (forall i a, users s !! i = Some a ->
            strict_eq (u_email a) (field b "email") = false) as Hfresh.
  { intros i a Hi. apply (List.find_none _ _ Hfind).
    apply list_elem_of_In, list_elem_of_lookup. eauto. }
  intros i j a c Hi Hj Heq. unfold push in Hi, Hj.
  apply lookup_snoc_Some in Hi as [[_ Hi] | [-> <-]];
    apply lookup_snoc_Some in Hj as [[_ Hj] | [-> <-]].
  - eapply Huniq; eassumption.
  - simpl in Heq. rewrite (Hfresh _ _ Hi) in Heq. discriminate.
  - simpl in Heq. rewrite strict_eq_sym, (Hfresh _ _ Hj) in Heq. discriminate.
  - reflexivity.
Qed.


(** *** Every stored record is accounted for *)

Lemma handle_stores r e s :
  users (fst (handle r e s)) = users s /\
  workflows (fst (handle r e s))
  = (workflows s ++ omap created_workflow (snd (handle r e s)))%list /\
  integrations (fst (handle r e s))
  = (integrations s ++ omap created_integration (snd (handle r e s)))%list /\
  executions (fst (handle r e s))
  = (executions s ++ omap created_execution (snd (handle r e s)))%list.
Proof.
  destruct r; route_cases; unfold push; rewrite ?app_nil_r; repeat split; reflexivity.
Qed.

Lemma identity_alter e i l :
  List.map identity (alter (complete e) i l) = List.map identity l.
Proof.
  revert i. induction l as [|x l IH]; intros [|i]; simpl; [reflexivity.. | ].
  f_equal. apply IH.
Qed.

Lemma step_stores a e s s' out :
  step a e s = Some (s', out) ->
  (exists added, users s' = (users s ++ added)%list) /\
  workflows s' = (workflows s ++ omap created_workflow out)%list /\
  integrations s' = (integrations s ++ omap created_integration out)%list /\
  List.map identity (executions s')
  = (List.map identity (executions s)
     ++ List.map identity (omap created_execution out))%list.
Proof.
  unfold step. destruct (now e <? clock s); [discriminate|].
  destruct a as [| | r | k | k]; simpl.
  - destruct (listening s); [discriminate|]. intros [= <- <-].
    unfold listen. simpl. destruct (_ =? _)%nat; simpl; rewrite !app_nil_r;
      (split; [exists []; rewrite app_nil_r; reflexivity | repeat split; reflexivity]).
  - destruct (seed_pending s); [|discriminate]. intros [= <- <-]. simpl.
    rewrite !app_nil_r. split; [eexists; reflexivity | repeat split; reflexivity].
  - destruct (listening s); [|discriminate]. intros [= Hh].
    destruct (handle_stores r e (set_clock (now e) s)) as (Hu & Hw & Hi & Hx).
    rewrite Hh in Hu, Hw, Hi, Hx. simpl in Hu, Hw, Hi, Hx.
    split; [exists []; rewrite app_nil_r; exact Hu|].
    rewrite Hw, Hi, Hx, List.map_app. repeat split; reflexivity.
  - destruct (registering s !! k); [|discriminate]. intros [= <- <-]. simpl.
    rewrite !app_nil_r. split; [eexists; reflexivity | repeat split; reflexivity].
  - destruct (timers s !! k) as [tm|]; [|discriminate].
    destruct (_ && _); [|discriminate]. intros [= <- <-]. simpl.
    rewrite !app_nil_r, identity_alter.
    split; [exists []; rewrite app_nil_r; reflexivity | repeat split; reflexivity].
Qed.

(** What a run does to the stores. *)
Lemma run_stores evs : forall s s' out,
  run evs s = Some (s', out) ->
  (exists added, users s' = (users s ++ added)%list) /\
  workflows s' = (workflows s ++ omap created_workflow out)%list /\
  integrations s' = (integrations s ++ omap created_integration out)%list /\
  List.map identity (executions s')
  = (List.map identity (executions s)
     ++ List.map identity (omap created_execution out))%list.
Proof.
  induction evs as [|[a e] evs IH]; simpl; intros s s' out.
  - intros [= <- <-]. simpl. rewrite !app_nil_r.
    split; [exists []; rewrite app_nil_r; reflexivity | repeat split; reflexivity].
  - destruct (step a e s) as [[s1 out1]|] eqn:Hstep; [|discriminate].
    destruct (run evs s1) as [[s2 out2]|] eqn:Hrun; [|discriminate].
    intros [= <- <-].
    destruct (step_stores _ _ _ _ _ Hstep) as ((u1 & Hu1) & Hw1 & Hi1 & Hx1).
    destruct (IH _ _ _ Hrun) as ((u2 & Hu2) & Hw2 & Hi2 & Hx2).
    rewrite !omap_app, List.map_app. split; [|split; [|split]].
    + exists (u1 ++ u2)%list. rewrite Hu2, Hu1, <- app_assoc. reflexivity.
    + rewrite Hw2, Hw1, <- app_assoc. reflexivity.
    + rewrite Hi2, Hi1, <- app_assoc. reflexivity.
    + rewrite Hx2, Hx1, <- app_assoc. reflexivity.
Qed.

(** X1: Along any run the stores only grow, and they grow by exactly the
    records the 201 answers report: [workflows] and [integrations] are the
    old array followed by the created records in the order of the answers;
    [executions] likewise up to the fields its timer rewrites; no user
    record is ever removed or changed. *)
Theorem stores_grow_by_created_records evs : forall s s' out,
  run evs s = Some (s', out) ->
  (exists added, users s' = (users s ++ added)%list) /\
  workflows s' = (workflows s ++ omap created_workflow out)%list /\
  integrations s' = (integrations s ++ omap created_integration out)%list /\
  List.map identity (executions s')
  = (List.map identity (executions s)
     ++ List.map identity (omap created_execution out))%list.
Proof. exact (run_stores evs). Qed.

(** Before the server listens nothing has happened yet. *)
Definition not_started (s : state) : Prop :=
  listening s = false ->
  users s = [] /\ seed_pending s = false /\ registering s = [].

Lemma handle_flags r e s :
  listening (fst (handle r e s)) = listening s /\
  seed_pending (fst (handle r e s)) = seed_pending s.
Proof. destruct r; route_cases; split; reflexivity. Qed.

Lemma length_push {A : Type} (x : A) (l : list A) : length (push x l) = S (length l).
Proof. unfold push. induction l as [|y l IH]; simpl; [reflexivity | rewrite IH; reflexivity]. Qed.

Lemma step_users_count a e s s' out :
  not_started s ->
  step a e s = Some (s', out) ->
  not_started s' /\
  (length (users s') + (if seed_pending s' then 1 else 0)
   + (if listening s then 1 else 0)
   = length (users s) + (if seed_pending s then 1 else 0)
     + (if listening s' then 1 else 0) + length (registered_roles out))%nat.
Proof.
  intros Hs. unfold step. destruct (now e <? clock s); [discriminate|].
  destruct a as [| | r | k | k]; simpl.
  - destruct (listening s) eqn:Hl; [discriminate|]. intros [= <- <-].
    destruct (Hs Hl) as (Hu & Hp & _). unfold listen. simpl.
    rewrite !Hu, !Hp. simpl. rewrite ?Hu. simpl. split; [intros Hl'; discriminate Hl' | reflexivity].
  - destruct (seed_pending s) eqn:Hp; [|discriminate]. intros [= <- <-]. simpl.
    destruct (listening s) eqn:Hl.
    + split; [intros Hl'; simpl in Hl'; congruence|]. rewrite length_push. lia.
    + destruct (Hs Hl) as (_ & Hp' & _). congruence.
  - destruct (listening s) eqn:Hl; [|discriminate]. intros [= Hh].
    pose proof (handle_users r e (set_clock (now e) s)) as Hu.
    pose proof (handle_registered_roles r e (set_clock (now e) s)) as Hr.
    destruct (handle_flags r e (set_clock (now e) s)) as (Hl' & Hp').
    rewrite Hh in Hu, Hr, Hl', Hp'. simpl in Hu, Hr, Hl', Hp'.
    rewrite Hu, Hr, Hp'. split; [intros Hl''; congruence | rewrite Hl', Hl; simpl; lia].
  - destruct (registering s !! k) as [pr|] eqn:Hk; [|discriminate]. intros [= <- <-]. simpl.
    destruct (listening s) eqn:Hl.
    + split; [intros Hl'; simpl in Hl'; congruence|]. rewrite length_push. lia.
    + destruct (Hs Hl) as (_ & _ & Hr). rewrite Hr in Hk. discriminate.
  - destruct (timers s !! k) as [tm|]; [|discriminate].
    destruct (_ && _); [|discriminate]. intros [= <- <-]. simpl.
    split; [exact Hs | lia].
Qed.

Lemma run_users_count evs : forall s s' out,
  not_started s ->
  run evs s = Some (s', out) ->
  (length (users s') + (if seed_pending s' then 1 else 0)
   + (if listening s then 1 else 0)
   = length (users s) + (if seed_pending s then 1 else 0)
     + (if listening s' then 1 else 0) + length (registered_roles out))%nat.
Proof.
  induction evs as [|[a e] evs IH]; simpl; intros s s' out Hs.
  - intros [= <- <-]. simpl. lia.
  - destruct (step a e s) as [[s1 out1]|] eqn:Hstep; [|discriminate].
    destruct (run evs s1) as [[s2 out2]|] eqn:Hrun; [|discriminate].
    intros [= <- <-].
    destruct (step_users_count _ _ _ _ _ Hs Hstep) as (Hs1 & H1).
    pose proof (IH _ _ _ Hs1 Hrun) as H2.
    rewrite registered_roles_app, length_app. lia.
Qed.

(** X2: Over a run from the initial state the users are the successful
    registrations plus the default admin: once the listen callback has run
    and its hash has resolved there is one user more than 201 answers to
    POST /api/auth/register, and before that exactly as many. *)
Theorem users_are_registrations_and_seed evs s out :
  run evs init = Some (s, out) ->
  length (users s)
  = (length (registered_roles out)
     + (if listening s && negb (seed_pending s) then 1 else 0))%nat /\
  (seed_pending s = true -> listening s = true).
Proof.
  intros Hrun.
  assert (not_started init) as H0 by (intros _; repeat split; reflexivity).
  pose proof (run_users_count _ _ _ _ H0 Hrun) as Hcount. simpl in Hcount.
  assert (not_started s) as Hs.
  { clear Hcount. revert Hrun H0. generalize init. revert out.
    induction evs as [|[a e] evs IH]; simpl; intros out s0.
    - intros [= <- <-]. auto.
    - destruct (step a e s0) as [[s1 out1]|] eqn:Hstep; [|discriminate].
      destruct (run evs s1) as [[s2 out2]|] eqn:Hrun; [|discriminate].
      intros [= <- <-] H0. eapply IH; [exact Hrun|].
      apply (step_users_count _ _ _ _ _ H0 Hstep). }
  destruct (listening s) eqn:Hl.
  - destruct (seed_pending s); simpl; (split; [lia | intros; reflexivity || discriminate]).
  - destruct (Hs Hl) as (_ & Hp & _). rewrite Hp in *. simpl.
    split; [lia | discriminate].
Qed.

(** *** Executions belong to their starter *)

Lemma strict_eq_primitive a b : strict_eq a b = true -> primitive b = true.
Proof.
  unfold primitive.
  destruct a as [| | x | x | x | |], b as [| | y | y | y | |]; simpl;
    try discriminate; intros H; try reflexivity.
  - destruct y; reflexivity.
  - apply Z.eqb_refl.
  - apply String.eqb_refl.
Qed.

(** X3: The answer of GET /api/executions to an authenticated user B is the
    sub-list of [executions] whose [userId] is B's; an execution that
    carries another user's id is not in it. *)
Theorem executions_listed_per_user (authHeader : option string) (B : payload)
    (e : env) (s : state) :
  authenticateToken authHeader e = Next B ->
  exists xs,
    handle (GetExecutions authHeader) e s = (s, [json 200 (BExecutions xs)]) /\
    xs = List.filter (fun x => strict_eq (e_userId x) (p_userId B)) (executions s) /\
    (forall x, In x xs <->
               In x (executions s) /\ strict_eq (e_userId x) (p_userId B) = true) /\
    (forall A x, strict_eq (p_userId A) (p_userId B) = false ->
                 e_userId x = p_userId A -> ~ In x xs).
Proof.
  intros Hauth. eexists. split; [|split; [reflexivity|split]].
  - simpl. rewrite (protected_next _ _ _ _ _ Hauth). reflexivity.
  - intros x. apply List.filter_In.
  - intros A x Hne Hx Hin. apply List.filter_In in Hin as [_ Hin].
    rewrite Hx in Hin. congruence.
Qed.

Lemma post_executions_started workflowId A e s s1 x :
  post_executions workflowId A e s = (s1, json 201 (BExecution x)) ->
  exists w,
    In w (workflows s) /\ w_id w = workflowId /\
    strict_eq (w_userId w) (p_userId A) = true /\
    (exists name, js_to_string (w_name w) = Some name /\
                  x = new_execution A workflowId name e) /\
    s1 = set_timers
           (push {| tm_exec := length (executions s); tm_delay := execution_delay |})
           (set_executions (push x) s).
Proof.
  unfold post_executions.
  destruct (List.find _ (workflows s)) as [w|] eqn:Hfind; [|discriminate].
  destruct (js_to_string (w_name w)) as [name|] eqn:Hname; [|discriminate].
  intros [= <- <-]. apply List.find_some in Hfind as [Hin Hw].
  apply andb_prop in Hw as [Hid Hown]. apply String.eqb_eq in Hid.
  exists w. split; [exact Hin|]. split; [exact Hid|]. split; [exact Hown|].
  split; [exists name; split; [exact Hname | reflexivity] | reflexivity].
Qed.

(** X4: An execution started by user A is in A's GET /api/executions in every
    later state, with the identity it was created with, and no record with
    that identity is ever in the list of a user whose id is not A's. *)
Theorem started_execution_stays_listed (workflowId : string) (A : payload)
    (eA : env) (s s1 : state) (x : execution)
    (evs : list (action * env)) (s2 : state) (out : list response) :
  post_executions workflowId A eA s = (s1, json 201 (BExecution x)) ->
  run evs s1 = Some (s2, out) ->
  (forall e, exists x',
      In x' (List.filter (fun y => strict_eq (e_userId y) (p_userId A)) (executions s2)) /\
      get_executions A e s2
      = (s2, json 200 (BExecutions
               (List.filter (fun y => strict_eq (e_userId y) (p_userId A)) (executions s2)))) /\
      identity x' = identity x) /\
  (forall B x',
      strict_eq (p_userId A) (p_userId B) = false ->
      In x' (List.filter (fun y => strict_eq (e_userId y) (p_userId B)) (executions s2)) ->
      identity x' <> identity x).
Proof.
  intros Hpost Hrun.
  destruct (post_executions_started _ _ _ _ _ _ Hpost)
    as (w & _ & _ & Hown & (name & _ & Hx) & Hs1).
  assert (e_userId x = p_userId A) as Huser by (rewrite Hx; reflexivity).
  split.
  - intros e.
    destruct (run_stores _ _ _ _ Hrun) as (_ & _ & _ & Hids).
    assert (In (identity x) (List.map identity (executions s2))) as Hin.
    { rewrite Hids, Hs1. simpl. unfold push. rewrite List.map_app.
      apply in_or_app. left. apply in_or_app. right. left. reflexivity. }
    apply List.in_map_iff in Hin as (x' & Hid & Hin).
    exists x'. split; [|split; [reflexivity | exact Hid]].
    apply List.filter_In. split; [exact Hin|].
    assert (e_userId x' = p_userId A) as ->
      by (unfold identity in Hid; injection Hid as _ Hu _ _; congruence).
    exact (strict_eq_primitive _ _ Hown).
  - intros B x' Hne Hin Hid. apply List.filter_In in Hin as [_ Hin].
    assert (e_userId x' = p_userId A) as Hu
      by (unfold identity in Hid; injection Hid as _ Hu _ _; congruence).
    rewrite Hu in Hin. congruence.
Qed.

(** An execution names a workflow of the store that carries its user id. *)
Definition executions_refer_to_workflows (s : state) : Prop :=
  forall i x,
    executions s !! i = Some x ->
    exists w, In w (workflows s) /\ w_id w = e_workflowId x /\
              strict_eq (w_userId w) (e_userId x) = true.

Lemma handle_executions_refer r e s :
  executions_refer_to_workflows s ->
  executions_refer_to_workflows (fst (handle r e s)).
Proof.
  intros Hs.
  assert (forall y, executions_refer_to_workflows (set_workflows (push y) s)) as Hpush.
  { intros y i x Hi. destruct (Hs i x Hi) as (w & Hin & Hrest).
    exists w. split; [|exact Hrest]. simpl. unfold push. apply in_or_app. left. exact Hin. }
  destruct r; simpl; unfold protected;
    try (destruct (authenticateToken _ e) as [r0|user] eqn:Hauth; simpl);
    try exact Hs; try apply Hpush.
  - unfold register_begin. repeat match goal with
      | |- context [match ?c with _ => _ end] => destruct c
      end; exact Hs.
  - unfold deploy. destruct (List.find _ templates); simpl; [apply Hpush | exact Hs].
  - destruct (post_executions workflowId user e s) as [s1 r1] eqn:Hpost.
    unfold post_executions in Hpost.
    destruct (List.find _ (workflows s)) as [w|] eqn:Hfind;
      [destruct (js_to_string (w_name w))|];
      injection Hpost as <- <-; try exact Hs.
    apply List.find_some in Hfind as [Hin Hw].
    apply andb_prop in Hw as [Hid Hown]. apply String.eqb_eq in Hid.
    intros i x Hi. simpl in Hi. unfold push in Hi.
    apply lookup_snoc_Some in Hi as [[_ Hi] | [_ <-]].
    + exact (Hs i x Hi).
    + exists w. repeat split; assumption.
Qed.

Lemma step_executions_refer a e s s' out :
  step a e s = Some (s', out) ->
  executions_refer_to_workflows s -> executions_refer_to_workflows s'.
Proof.
  unfold step. destruct (now e <? clock s); [discriminate|].
  destruct a as [| | r | k | k]; simpl.
  - destruct (listening s); [discriminate|]. intros [= <- <-] Hs.
    unfold listen. simpl. destruct (_ =? _)%nat; exact Hs.
  - destruct (seed_pending s); [|discriminate]. intros [= <- <-] Hs. exact Hs.
  - destruct (listening s); [|discriminate]. intros [= Hh] Hs.
    pose proof (handle_executions_refer r e (set_clock (now e) s) Hs) as H.
    rewrite Hh in H. exact H.
  - destruct (registering s !! k); [|discriminate]. intros [= <- <-] Hs. exact Hs.
  - destruct (timers s !! k) as [tm|]; [|discriminate].
    destruct (_ && _); [|discriminate]. intros [= <- <-] Hs i x. simpl.
    destruct (decide (tm_exec tm = i)) as [<- | Hne].
    + rewrite list_lookup_alter_eq.
      destruct (executions s !! tm_exec tm) as [x0|] eqn:Hx0; [|discriminate].
      simpl. intros [= <-]. exact (Hs _ _ Hx0).
    + rewrite list_lookup_alter_ne by exact Hne. apply Hs.
Qed.

(** X5: In every state the server can reach, each execution names a workflow
    that is in the store and carries the execution's user id: workflows
    are never removed and an execution is only created from one. *)
Theorem executions_always_refer_to_workflows (s : state) :
  reachable s -> executions_refer_to_workflows s.
Proof.
  intros (evs & out & Hrun).
  assert (executions_refer_to_workflows init) as H0 by (intros i x [=]).
  revert Hrun H0. generalize init. revert out.
  induction evs as [|[a e] evs IH]; simpl; intros out s0.
  - intros [= <- <-]. auto.
  - destruct (step a e s0) as [[s1 out1]|] eqn:Hstep; [|discriminate].
    destruct (run evs s1) as [[s2 out2]|] eqn:Hrun; [|discriminate].
    intros [= <- <-] H0. eapply IH; [exact Hrun|].
    eapply step_executions_refer; eassumption.
Qed.

Lemma run_workflows_stay evs s s' out w :
  run evs s = Some (s', out) -> In w (workflows s) -> In w (workflows s').
Proof.
  intros Hrun Hin.
  destruct (run_stores _ _ _ _ Hrun) as (_ & -> & _).
  apply in_or_app. left. exact Hin.
Qed.

(** X6: The other half of the 404 rule: once a workflow carrying user A's id
    is in the store, A's POST /api/executions/:workflowId with its id is
    never answered 404 in any later state.  The handler takes the first
    workflow with that id and owner.  When that workflow's name converts
    to a string the answer is 201: one running execution whose log line
    carries the name is appended and one timer is armed.  When the
    conversion throws the answer is 500 and the state is unchanged. *)
Theorem owner_can_start_workflow (authHeader : option string) (A : payload)
    (w : workflow) (evs : list (action * env)) (s s2 : state)
    (out : list response) (e : env) :
  In w (workflows s) ->
  strict_eq (w_userId w) (p_userId A) = true ->
  run evs s = Some (s2, out) ->
  authenticateToken authHeader e = Next A ->
  exists w1,
    List.find (fun w' => String.eqb (w_id w') (w_id w)
                         && strict_eq (w_userId w') (p_userId A)) (workflows s2)
    = Some w1 /\
    In w1 (workflows s2) /\ w_id w1 = w_id w /\
    strict_eq (w_userId w1) (p_userId A) = true /\
    match js_to_string (w_name w1) with
    | Some name =>
        exists x s3,
          handle (PostExecutions authHeader (w_id w)) e s2
          = (s3, [json 201 (BExecution x)]) /\
          e_id x = uuid e /\ e_userId x = p_userId A /\ e_workflowId x = w_id w /\
          e_status x = "running" /\
          e_logs x = ["Execution started for workflow: " ++ name] /\
          executions s3 = (executions s2 ++ [x])%list /\
          timers s3 = (timers s2 ++ [{| tm_exec := length (executions s2);
                                        tm_delay := 2000 |}])%list /\
          workflows s3 = workflows s2
    | None =>
        handle (PostExecutions authHeader (w_id w)) e s2
        = (s2, [error 500 "Failed to start execution"])
    end.
Proof.
  intros Hin Hown Hrun Hauth.
  pose proof (run_workflows_stay _ _ _ _ _ Hrun Hin) as Hin2.
  simpl. rewrite (protected_next _ _ _ _ _ Hauth). unfold post_executions.
  destruct (List.find _ (workflows s2)) as [w1|] eqn:Hfind.
  - pose proof Hfind as Hfound. apply List.find_some in Hfound as [Hin1 Hw1].
    apply andb_prop in Hw1 as [Hid Hown1]. apply String.eqb_eq in Hid.
    exists w1. split; [reflexivity|]. split; [exact Hin1|]. split; [exact Hid|].
    split; [exact Hown1|].
    destruct (js_to_string (w_name w1)) as [name|]; [|reflexivity].
    eexists. eexists. split; [reflexivity|]. repeat split.
  - apply (List.find_none _ _ Hfind) in Hin2. simpl in Hin2.
    rewrite String.eqb_refl, Hown in Hin2. discriminate.
Qed.

(** *** The shape of an execution record *)

Definition started_line (name : string) : string :=
  "Execution started for workflow: " ++ name.

Definition well_logged (x : execution) : Prop :=
  (e_status x = "running" ->
   exists name, e_logs x = [started_line name]) /\
  (e_status x = "completed" ->
   exists name n,
     1 <= n <= 50 /\
     e_logs x = [started_line name;
                 "Execution completed successfully";
                 "Processed " ++ string_of_Z n ++ " items"]).

Lemma new_execution_well_logged user workflowId name e :
  well_logged (new_execution user workflowId name e).
Proof.
  split; simpl; [|discriminate]. intros _. eexists. reflexivity.
Qed.

Lemma handle_well_logged r e s :
  (forall i x, executions s !! i = Some x -> well_logged x) ->
  forall i x, executions (fst (handle r e s)) !! i = Some x -> well_logged x.
Proof.
  intros Hs.
  destruct r; route_cases; try exact Hs.
  intros i x Hi. simpl in Hi. unfold push in Hi.
  apply lookup_snoc_Some in Hi as [[_ Hi] | [_ <-]];
    [exact (Hs i x Hi) | apply new_execution_well_logged].
Qed.

Lemma step_well_logged a e s s' out :
  step a e s = Some (s', out) ->
  lifecycle s ->
  (forall i x, executions s !! i = Some x -> well_logged x) ->
  forall i x, executions s' !! i = Some x -> well_logged x.
Proof.
  unfold step. destruct (now e <? clock s); [discriminate|].
  destruct a as [| | r | k | k]; simpl.
  - destruct (listening s); [discriminate|]. intros [= <- <-] _ Hs.
    unfold listen. simpl. destruct (_ =? _)%nat; exact Hs.
  - destruct (seed_pending s); [|discriminate]. intros [= <- <-] _ Hs. exact Hs.
  - destruct (listening s); [|discriminate]. intros [= Hh] _ Hs.
    pose proof (handle_well_logged r e (set_clock (now e) s) Hs) as H.
    rewrite Hh in H. exact H.
  - destruct (registering s !! k); [|discriminate]. intros [= <- <-] _ Hs. exact Hs.
  - destruct (timers s !! k) as [tm|] eqn:Hk; [|discriminate].
    destruct (Z.leb_spec 0 (random50 e)); [|discriminate]. simpl.
    destruct (Z.ltb_spec (random50 e) 50); [|discriminate].
    intros [= <- <-] Hl Hs i x. simpl.
    destruct (decide (tm_exec tm = i)) as [<- | Hne].
    + rewrite list_lookup_alter_eq.
      destruct (lc_timer s Hl _ _ Hk) as (x0 & Hx0 & Hrunning & _).
      rewrite Hx0. simpl. intros [= <-].
      destruct (proj1 (Hs _ _ Hx0) Hrunning) as (name & Hlogs).
      split; simpl; [discriminate|]. intros _.
      exists name, (random50 e + 1). split; [lia|]. rewrite Hlogs. reflexivity.
    + rewrite list_lookup_alter_ne by exact Hne. apply Hs.
Qed.

(** X7: In every state the server can reach an execution is in one of two
    shapes.  Running: no [completedAt], and one log line.  Completed:
    [completedAt] is set, and there are three log lines, the last one
    reporting between 1 and 50 processed items. *)
Theorem execution_record_shape (s : state) :
  reachable s ->
  forall i x,
    executions s !! i = Some x ->
    (e_status x = "running" /\ e_completedAt x = None /\
     exists name, e_logs x = [started_line name]) \/
    (e_status x = "completed" /\
     (exists t, e_completedAt x = Some t) /\
     exists name n,
       1 <= n <= 50 /\
       e_logs x = [started_line name;
                   "Execution completed successfully";
                   "Processed " ++ string_of_Z n ++ " items"]).
Proof.
  intros Hreach.
  assert (forall i x, executions s !! i = Some x -> well_logged x) as Hlogs.
  { destruct Hreach as (evs & out & Hrun).
    assert (lifecycle init) as Hl0 by apply lifecycle_init.
    assert (forall i x, executions init !! i = Some x -> well_logged x) as H0
      by (intros i x [=]).
    revert Hrun Hl0 H0. generalize init. revert out.
    induction evs as [|[a e] evs IH]; simpl; intros out s0.
    - intros [= <- <-]. auto.
    - destruct (step a e s0) as [[s1 out1]|] eqn:Hstep; [|discriminate].
      destruct (run evs s1) as [[s2 out2]|] eqn:Hrun; [|discriminate].
      intros [= <- <-] Hl0 H0. eapply IH; [exact Hrun | |].
      + eapply step_lifecycle; eassumption.
      + eapply step_well_logged; eassumption. }
  intros i x Hi. destruct (Hlogs i x Hi) as [Hrun Hdone].
  destruct (lc_exec s (reachable_lifecycle s Hreach) i x Hi)
    as [(Hst & Hnone & _) | (Hst & Ht)]; [left | right]; auto.
Qed.

(** *** Deploying a template that is not there *)

(** X9: An authenticated POST /api/templates/:templateId/deploy whose id is
    the id of no template is answered 404 and changes nothing. *)
Theorem deploy_unknown_template (authHeader : option string) (user : payload)
    (templateId : string) (e : env) (s : state) :
  authenticateToken authHeader e = Next user ->
  (forall t, In t templates -> t_id t <> templateId) ->
  handle (PostDeploy authHeader templateId) e s = (s, [error 404 "Template not found"]).
Proof.
  intros Hauth Hnone. simpl. rewrite (protected_next _ _ _ _ _ Hauth). unfold deploy.
  destruct (List.find _ templates) as [t|] eqn:Hfind; [|reflexivity].
  apply List.find_some in Hfind as [Hin Hid]. apply String.eqb_eq in Hid.
  destruct (Hnone t Hin Hid).
Qed.

(** *** What the middleware takes for the token *)

Lemma split_space_word (a b : string) :
  split_space a = [a] -> split_space (a ++ " " ++ b) = a :: split_space b.
Proof.
  induction a as [|c a IH]; simpl; [reflexivity|].
  destruct (Ascii.eqb c " "); [intros [=]|].
  destruct (split_space a) as [|h t] eqn:Ha.
  - intros [= <-]. discriminate Ha.
  - intros [= -> ->]. rewrite IH by reflexivity. reflexivity.
Qed.

Lemma header_token_second_word (scheme token : string) :
  split_space scheme = [scheme] ->
  header_token (Some (scheme ++ " " ++ token)) = head (split_space token).
Proof.
  intros Hscheme. unfold header_token.
  assert (String.eqb (scheme ++ " " ++ token) "" = false) as ->
    by (destruct scheme; reflexivity).
  rewrite split_space_word by exact Hscheme. simpl.
  destruct (split_space token); reflexivity.
Qed.

(** X10: The middleware never looks at the scheme: whatever single word stands
    before the first space, the token is the word after it, and anything
    after a further space is ignored.  So [Basic t], [bearer t] and
    [Bearer t trailing words] are all treated as [Bearer t]. *)
Theorem token_is_the_second_word (scheme token rest : string) (e : env) :
  split_space scheme = [scheme] ->
  split_space token = [token] ->
  authenticateToken (Some (scheme ++ " " ++ token)) e
  = authenticateToken (Some ("Bearer " ++ token)) e /\
  authenticateToken (Some (scheme ++ " " ++ token ++ " " ++ rest)) e
  = authenticateToken (Some ("Bearer " ++ token)) e.
Proof.
  intros Hscheme Htoken. unfold authenticateToken.
  change ("Bearer " ++ token) with ("Bearer" ++ " " ++ token).
  rewrite !header_token_second_word by (exact Hscheme || reflexivity).
  rewrite split_space_word by exact Htoken. rewrite Htoken. split; reflexivity.
Qed.

(** *** The signing secret *)

Lemma JWT_SECRET_nonempty : JWT_SECRET <> "".
Proof.
  unfold JWT_SECRET. destruct env_JWT_SECRET as [secret|]; [|discriminate].
  destruct (String.eqb_spec secret ""); [discriminate | assumption].
Qed.

(** X11: When [process.env.JWT_SECRET] is unset or empty the secret is the
    string written in the source, so a token that anybody signs with that
    string, for any user id they choose, is accepted and gives access to
    that user's workflows. *)
Theorem default_secret_tokens_accepted (p : payload) (iat : Z) (e : env) (s : state) :
  jwt_sound lib ->
  env_JWT_SECRET = None \/ env_JWT_SECRET = Some "" ->
  seconds e < iat + token_lifetime ->
  authenticateToken
    (Some ("Bearer " ++ jwt_sign lib p "autoflow-secret-key-change-in-production" iat)) e
  = Next p /\
  handle
    (GetWorkflows
       (Some ("Bearer " ++ jwt_sign lib p "autoflow-secret-key-change-in-production" iat)))
    e s
  = (s, [json 200 (BWorkflows
           (List.filter (fun w => strict_eq (w_userId w) (p_userId p)) (workflows s)))]).
Proof.
  intros Hjwt Henv Hfresh.
  assert (JWT_SECRET = "autoflow-secret-key-change-in-production") as Hsecret
    by (unfold JWT_SECRET; destruct Henv as [-> | ->]; reflexivity).
  pose proof (authenticate_signed p iat e Hjwt Hfresh) as Hauth.
  rewrite Hsecret in Hauth. split; [exact Hauth|].
  simpl. rewrite (protected_next _ _ _ _ _ Hauth). reflexivity.
Qed.

(** *** Roles are carried, never read *)

(** X12: Two accepted tokens with the same [userId] are interchangeable on
    every route, whatever [role] and [email] they carry: same answer, same
    state. *)
Theorem only_the_user_id_matters (r : request) (a1 a2 : option string)
    (u1 u2 : payload) (e : env) (s : state) :
  authenticateToken a1 e = Next u1 ->
  authenticateToken a2 e = Next u2 ->
  p_userId u1 = p_userId u2 ->
  handle (with_authorization a1 r) e s = handle (with_authorization a2 r) e s.
Proof.
  intros H1 H2 Hid.
  destruct r; simpl; try reflexivity;
    rewrite (protected_next _ _ _ _ _ H1), (protected_next _ _ _ _ _ H2);
    unfold get_workflows, post_workflows, new_workflow, get_integrations,
      post_integrations, new_integration, get_templates, deploy, deployed_workflow,
      get_executions, post_executions, new_execution;
    rewrite ?Hid; reflexivity.
Qed.

(** *** Registering, then logging in *)

Lemma find_app_first {A : Type} (f : A -> bool) (l added : list A) (x : A) :
  List.find f l = Some x -> List.find f (l ++ added)%list = Some x.
Proof.
  induction l as [|y l IH]; simpl; [discriminate|].
  destruct (f y); [intros H; exact H | exact IH].
Qed.

Lemma find_push_fresh {A : Type} (f : A -> bool) (l : list A) (x : A) :
  (forall y, In y l -> f y = false) -> f x = true ->
  List.find f (push x l) = Some x.
Proof.
  unfold push. induction l as [|y l IH]; simpl; intros Hfresh Hx.
  - rewrite Hx. reflexivity.
  - rewrite (Hfresh y (or_introl eq_refl)). apply IH; [|exact Hx].
    intros z Hz. apply Hfresh. right. exact Hz.
Qed.

(** The first user with the email is the one the password is held against. *)
Lemma login_first_match b e s u pw :
  List.find (fun u => strict_eq (u_email u) (field b "email")) (users s) = Some u ->
  truthy (field b "email") = true ->
  field b "password" = JStr pw -> pw <> "" ->
  bcrypt_compare lib pw (u_password u) = true ->
  login b e s = json 200 (BAuth "Login successful" (token_for u e) (view u)).
Proof.
  intros Hfind Hemail Hpw Hne Hmatch. unfold login.
  rewrite Hemail, Hpw, Hfind, Hmatch. simpl.
  destruct (String.eqb_spec pw ""); [contradiction | reflexivity].
Qed.

(** What a suspended registration holds has passed the handler's guard. *)
Definition pending_valid (s : state) : Prop :=
  forall k pr,
    registering s !! k = Some pr ->
    truthy (pr_email pr) = true /\ truthy (pr_name pr) = true /\ pr_password pr <> "".

Lemma handle_pending_valid r e s :
  pending_valid s -> pending_valid (fst (handle r e s)).
Proof.
  intros Hs. destruct r; try (route_cases; exact Hs).
  simpl. unfold register_begin.
  destruct (negb (truthy (field b "email"))) eqn:He; [exact Hs|].
  destruct (negb (truthy (field b "password"))) eqn:Hp; [exact Hs|].
  destruct (negb (truthy (field b "name"))) eqn:Hn; [exact Hs|]. simpl.
  destruct (List.find _ (users s)); [exact Hs|].
  destruct (field b "password") as [| | | | pw | |] eqn:Hpw; try exact Hs.
  intros k pr Hk. simpl in Hk. unfold push in Hk.
  apply lookup_snoc_Some in Hk as [[_ Hk] | [_ <-]]; [exact (Hs k pr Hk)|]. simpl.
  apply negb_false_iff in He, Hp, Hn. repeat split; try assumption.
  intros ->. discriminate Hp.
Qed.

Lemma lookup_delete_Some {A : Type} (l : list A) (k j : nat) (x : A) :
  delete k l !! j = Some x -> exists j', l !! j' = Some x.
Proof. rewrite list_lookup_delete. eauto. Qed.

Lemma step_pending_valid a e s s' out :
  step a e s = Some (s', out) -> pending_valid s -> pending_valid s'.
Proof.
  unfold step. destruct (now e <? clock s); [discriminate|].
  destruct a as [| | r | k | k]; simpl.
  - destruct (listening s); [discriminate|]. intros [= <- <-] Hs.
    unfold listen. simpl. destruct (_ =? _)%nat; exact Hs.
  - destruct (seed_pending s); [|discriminate]. intros [= <- <-] Hs. exact Hs.
  - destruct (listening s); [|discriminate]. intros [= Hh] Hs.
    pose proof (handle_pending_valid r e (set_clock (now e) s) Hs) as H.
    rewrite Hh in H. exact H.
  - destruct (registering s !! k); [|discriminate]. intros [= <- <-] Hs j pr Hj.
    simpl in Hj. apply lookup_delete_Some in Hj as [j' Hj']. exact (Hs j' pr Hj').
  - destruct (timers s !! k) as [tm|]; [|discriminate].
    destruct (_ && _); [|discriminate]. intros [= <- <-] Hs. exact Hs.
Qed.

Lemma reachable_pending_valid s : reachable s -> pending_valid s.
Proof.
  intros (evs & out & Hrun).
  assert (pending_valid init) as H0 by (intros k pr [=]).
  revert Hrun H0. generalize init. revert out.
  induction evs as [|[a e] evs IH]; simpl; intros out s0.
  - intros [= <- <-]. auto.
  - destruct (step a e s0) as [[s1 out1]|] eqn:Hstep; [|discriminate].
    destruct (run evs s1) as [[s2 out2]|] eqn:Hrun; [|discriminate].
    intros [= <- <-] H0. eapply IH; [exact Hrun|].
    eapply step_pending_valid; eassumption.
Qed.

Lemma run_find_user_stays evs s s' out f u :
  run evs s = Some (s', out) ->
  List.find f (users s) = Some u -> List.find f (users s') = Some u.
Proof.
  intros Hrun Hfind.
  destruct (run_stores _ _ _ _ Hrun) as ((added & ->) & _).
  apply find_app_first, Hfind.
Qed.

(** X13: A registration that completes while its email, a primitive value, is
    still free creates a user who can log in ever after with the email and
    password of the request: the answer is 200 and names that user. *)
Theorem registered_user_can_login (k : nat) (pr : pending_registration)
    (e : env) (s s1 : state) (out1 : list response)
    (evs : list (action * env)) (s2 : state) (out2 : list response)
    (b : gmap string jsval) (e2 : env) :
  bcrypt_sound lib ->
  reachable s ->
  registering s !! k = Some pr ->
  step (RegisterHashed k) e s = Some (s1, out1) ->
  (forall u, In u (users s) -> strict_eq (u_email u) (pr_email pr) = false) ->
  primitive (pr_email pr) = true ->
  run evs s1 = Some (s2, out2) ->
  field b "email" = pr_email pr ->
  field b "password" = JStr (pr_password pr) ->
  exists token u,
    handle (PostLogin b) e2 s2 = (s2, [json 200 (BAuth "Login successful" token (view u))]) /\
    In u (users s2) /\
    u_id u = uuid e /\ u_email u = pr_email pr /\ u_name u = pr_name pr.
Proof.
  intros Hbcrypt Hreach Hk Hstep Hfree Hprim Hrun Hemail Hpw.
  destruct (reachable_pending_valid s Hreach k pr Hk) as (Htruthy & _ & Hne).
  revert Hstep. unfold step. destruct (now e <? clock s); [discriminate|]. simpl.
  rewrite Hk. intros [= <- <-].
  set (s0 := set_registering (delete k) (set_clock (now e) s)) in *.
  set (u := new_user pr e s0) in *.
  assert (List.find (fun u => strict_eq (u_email u) (field b "email")) (users s2) = Some u)
    as Hfind.
  { eapply run_find_user_stays; [exact Hrun|]. simpl. rewrite Hemail.
    apply find_push_fresh; [exact Hfree | exact Hprim]. }
  exists (token_for u e2), u. split; [|split; [|repeat split]].
  - simpl. f_equal. f_equal. apply (login_first_match b e2 s2 u (pr_password pr)).
    + exact Hfind.
    + rewrite Hemail. exact Htruthy.
    + exact Hpw.
    + exact Hne.
    + apply (bcrypt_compare_hash lib Hbcrypt).
  - apply List.find_some in Hfind as [Hin _]. exact Hin.
Qed.

(** X14: The default admin can log in with the password written in the source
    in every state after its record was pushed, provided no user held its
    email at that moment. *)
Theorem default_admin_can_login (e : env) (s s1 : state) (out1 : list response)
    (evs : list (action * env)) (s2 : state) (out2 : list response)
    (b : gmap string jsval) (e2 : env) :
  bcrypt_sound lib ->
  step SeedHashed e s = Some (s1, out1) ->
  (forall u, In u (users s) -> strict_eq (u_email u) (JStr "admin@autoflow.com") = false) ->
  run evs s1 = Some (s2, out2) ->
  field b "email" = JStr "admin@autoflow.com" ->
  field b "password" = JStr "admin123" ->
  exists token,
    handle (PostLogin b) e2 s2
    = (s2, [json 200 (BAuth "Login successful" token
                        {| uv_id := uuid e;
                           uv_email := JStr "admin@autoflow.com";
                           uv_name := JStr "AutoFlow Admin";
                           uv_role := "admin" |})]).
Proof.
  intros Hbcrypt Hstep Hfree Hrun Hemail Hpw.
  revert Hstep. unfold step. destruct (now e <? clock s); [discriminate|]. simpl.
  destruct (seed_pending s); [|discriminate]. intros [= <- <-].
  assert (List.find (fun u => strict_eq (u_email u) (field b "email")) (users s2)
          = Some (default_admin e)) as Hfind.
  { eapply run_find_user_stays; [exact Hrun|]. simpl. rewrite Hemail.
    apply find_push_fresh; [exact Hfree | reflexivity]. }
  exists (token_for (default_admin e) e2). simpl. f_equal. f_equal.
  apply (login_first_match b e2 s2 (default_admin e) "admin123").
  - exact Hfind.
  - rewrite Hemail. reflexivity.
  - exact Hpw.
  - discriminate.
  - apply (bcrypt_compare_hash lib Hbcrypt).
Qed.

(** *** Emails that are not primitive values *)

Lemma strict_eq_not_primitive a b : primitive b = false -> strict_eq a b = false.
Proof.
  unfold primitive.
  destruct a as [| | x | x | x | |], b as [| | y | y | y | |]; simpl;
    try reflexivity; try discriminate.
  - destruct y; discriminate.
  - rewrite Z.eqb_refl. discriminate.
  - rewrite String.eqb_refl. discriminate.
Qed.

(** X15: An email that is an array or an object passes the guard of both
    handlers but never [===] a stored email: registration with it is never
    refused as a duplicate, whatever the store holds, and login with it
    and any non-empty password is always answered 401. *)
Theorem non_primitive_email_never_matches (b : gmap string jsval) (e : env) (s : state) :
  primitive (field b "email") = false ->
  (forall pw, field b "password" = JStr pw -> pw <> "" ->
              truthy (field b "name") = true ->
              handle (PostRegister b) e s
              = (set_registering
                   (push {| pr_email := field b "email";
                            pr_name := field b "name";
                            pr_password := pw |}) s, [])) /\
  (truthy (field b "password") = true ->
   handle (PostLogin b) e s = (s, [error 401 "Invalid credentials"])).
Proof.
  intros Hprim.
  assert (truthy (field b "email") = true) as Htruthy.
  { revert Hprim. unfold primitive.
    destruct (field b "email") as [| | x | x | x | |]; simpl; try reflexivity;
      try discriminate.
    - destruct x; discriminate.
    - rewrite Z.eqb_refl. discriminate.
    - rewrite String.eqb_refl. discriminate. }
  assert (List.find (fun u => strict_eq (u_email u) (field b "email")) (users s) = None)
    as Hfind.
  { destruct (List.find _ (users s)) as [u|] eqn:Hfind; [|reflexivity].
    apply List.find_some in Hfind as [_ Hu].
    rewrite (strict_eq_not_primitive _ _ Hprim) in Hu. discriminate. }
  split.
  - intros pw Hpw Hne Hname. simpl. unfold register_begin.
    rewrite Htruthy, Hname, Hpw, Hfind. simpl.
    destruct (String.eqb_spec pw ""); [contradiction | reflexivity].
  - intros Hpw. simpl. unfold login. rewrite Htruthy, Hpw, Hfind. reflexivity.
Qed.

(** *** The numbers the report routes give *)

(** X16: GET /api/system/stats is behind the same middleware as the list
    routes; for an authenticated user its two per-user totals are the
    lengths of the lists GET /api/workflows and GET /api/executions give
    that user, and its two global totals are the sizes GET / shows.  A
    workflow the user creates, the user's id being a primitive value,
    raises that user's total by one and leaves every other user's alone. *)
Theorem stats_agree_with_the_lists {R : Type} (process_uptime process_memory : R)
    (authHeader : option string) (user : payload) (e : env) (s : state) :
  authenticateToken authHeader e = Next user ->
  exists st ws xs,
    stats_route process_uptime process_memory authHeader e s = inr st /\
    handle (GetWorkflows authHeader) e s = (s, [json 200 (BWorkflows ws)]) /\
    handle (GetExecutions authHeader) e s = (s, [json 200 (BExecutions xs)]) /\
    totalWorkflows st = length ws /\
    totalExecutions st = length xs /\
    totalIntegrations st = root_integrations (get_root s) /\
    totalTemplates st = root_templates (get_root s) /\
    totalTemplates st = 2%nat /\
    (forall b e1,
       primitive (p_userId user) = true ->
       totalWorkflows (get_stats process_uptime process_memory user e
                         (fst (post_workflows b user e1 s)))
       = S (totalWorkflows st)) /\
    (forall other b e1,
       strict_eq (p_userId other) (p_userId user) = false ->
       totalWorkflows (get_stats process_uptime process_memory user e
                         (fst (post_workflows b other e1 s)))
       = totalWorkflows st).
Proof.
  intros Hauth. unfold stats_route. rewrite Hauth. simpl.
  rewrite !(protected_next _ _ _ _ _ Hauth).
  eexists. eexists. eexists. repeat (split; [reflexivity|]). split.
  - intros b e1 Hprim. simpl. rewrite filter_push. simpl.
    unfold primitive in Hprim. rewrite Hprim. apply length_push.
  - intros other b e1 Hne. simpl. rewrite filter_push. simpl. rewrite Hne. reflexivity.
Qed.

(** X17: Over a run from the initial state GET / shows five integrations plus
    one for each 201 answer of POST /api/integrations, and two templates. *)
Theorem root_counts (evs : list (action * env)) (s : state) (out : list response) :
  run evs init = Some (s, out) ->
  root_integrations (get_root s) = (5 + length (omap created_integration out))%nat /\
  root_templates (get_root s) = 2%nat /\
  (exists created, integrations s = (integrations0 ++ created)%list).
Proof.
  intros Hrun.
  destruct (run_stores _ _ _ _ Hrun) as (_ & _ & Hi & _).
  simpl in Hi. unfold get_root. simpl. rewrite Hi.
  split; [reflexivity|]. split; [reflexivity|]. eexists. reflexivity.
Qed.

(** *** Answers that are not 201 change nothing *)

(** X18: Whenever a request is answered with anything but 201 (a list, a
    login, or any error, the middleware's included) the state after the
    handler is the state before it. *)
Theorem only_201_changes_state (r : request) (e : env) (s s' : state) (x : response) :
  handle r e s = (s', [x]) ->
  status x <> 201 ->
  s' = s.
Proof.
  destruct r; route_cases; intros [= <- <-] Hst; try reflexivity;
    exfalso; apply Hst; reflexivity.
Qed.

(** *** A user's own workflows *)

(** X19: A workflow that carries user A's id stays in A's GET /api/workflows in
    every later state; in particular the workflow A has just created or
    deployed is the last of A's list.  All this needs A's id to be a
    primitive value: with an array or an object for [userId] the list is
    empty in every state. *)
Theorem own_workflows_stay_listed (A : payload) (s : state) :
  (forall w evs s2 out,
     In w (workflows s) ->
     strict_eq (w_userId w) (p_userId A) = true ->
     run evs s = Some (s2, out) ->
     In w (List.filter (fun w => strict_eq (w_userId w) (p_userId A)) (workflows s2))) /\
  (primitive (p_userId A) = true ->
   forall b e,
     List.filter (fun w => strict_eq (w_userId w) (p_userId A))
       (workflows (fst (post_workflows b A e s)))
     = push (new_workflow A b e)
         (List.filter (fun w => strict_eq (w_userId w) (p_userId A)) (workflows s))) /\
  (primitive (p_userId A) = false ->
   List.filter (fun w => strict_eq (w_userId w) (p_userId A)) (workflows s) = []).
Proof.
  split; [|split].
  - intros w evs s2 out Hin Hown Hrun. apply List.filter_In. split; [|exact Hown].
    eapply run_workflows_stay; eassumption.
  - intros Hprim b e. simpl. rewrite filter_push. simpl.
    unfold primitive in Hprim. rewrite Hprim. reflexivity.
  - intros Hprim. induction (workflows s) as [|w l IH]; simpl; [reflexivity|].
    rewrite (strict_eq_not_primitive _ _ Hprim). exact IH.
Qed.

(** *** Every execution can complete *)

Lemma timer_fires_exactly k tm e s :
  timers s !! k = Some tm ->
  clock s <= now e -> 0 <= random50 e < 50 ->
  step (TimerFired k) e s
  = Some (timer_fired tm e (set_timers (delete k) (set_clock (now e) s)), []).
Proof.
  intros Hk Hclock Hrand. unfold step.
  destruct (Z.ltb_spec (now e) (clock s)); [lia|]. simpl. rewrite Hk.
  destruct (Z.leb_spec 0 (random50 e)); [|lia].
  destruct (Z.ltb_spec (random50 e) 50); [|lia]. reflexivity.
Qed.

Lemma timers_drain (n : nat) : forall s,
  length (timers s) = n ->
  exists evs s', run evs s = Some (s', []) /\ timers s' = [].
Proof.
  induction n as [|n IH]; intros s Hlen.
  - exists [], s. split; [reflexivity|]. destruct (timers s); [reflexivity | discriminate].
  - destruct (timers s) as [|tm l] eqn:Ht; [discriminate|].
    set (e := {| now := clock s; uuid := ""; salt := ""; random50 := 0 |}).
    assert (timers s !! 0%nat = Some tm) as H0 by (rewrite Ht; reflexivity).
    pose proof (timer_fires_exactly 0 tm e s H0 ltac:(simpl; lia) ltac:(simpl; lia))
      as Hstep.
    destruct (IH (timer_fired tm e (set_timers (delete 0%nat) (set_clock (now e) s))))
      as (evs & s' & Hrun & Hnone).
    + simpl. rewrite Ht. simpl. simpl in Hlen. lia.
    + exists ((TimerFired 0, e) :: evs), s'. split; [|exact Hnone].
      simpl. rewrite Hstep, Hrun. reflexivity.
Qed.

(** X8: From every state the server can reach, letting the armed timers fire
    (and nothing else happen) leads to a state with no timer armed in
    which every execution is completed; the run sends no answer and leaves
    workflows, integrations and the identity of every execution alone. *)
Theorem every_execution_can_complete (s : state) :
  reachable s ->
  exists evs s',
    run evs s = Some (s', []) /\
    timers s' = [] /\
    (forall i x, executions s' !! i = Some x -> e_status x = "completed") /\
    List.map identity (executions s') = List.map identity (executions s) /\
    workflows s' = workflows s /\
    integrations s' = integrations s.
Proof.
  intros Hreach.
  destruct (timers_drain (length (timers s)) s eq_refl) as (evs & s' & Hrun & Hnone).
  exists evs, s'. split; [exact Hrun|]. split; [exact Hnone|].
  destruct (run_stores _ _ _ _ Hrun) as (_ & Hw & Hi & Hx).
  simpl in Hw, Hi, Hx. rewrite app_nil_r in Hw, Hi, Hx.
  split; [|repeat split; assumption].
  assert (lifecycle s') as Hl.
  { eapply run_lifecycle; [exact Hrun | apply reachable_lifecycle, Hreach]. }
  intros i x Hi'.
  destruct (lc_exec s' Hl i x Hi') as [(_ & _ & k & tm & Hk & _) | (Hdone & _)];
    [|exact Hdone].
  rewrite Hnone in Hk. discriminate.
Qed.
End Server.

(** ** The library instance meets the interface *)

Lemma of_numeral_numeral (p : positive) : Plain.of_numeral (Plain.numeral p) = Some p.
Proof.
  induction p as [q IH | q IH |]; [| | reflexivity];
    cbn [Plain.numeral Plain.of_numeral]; rewrite IH;
    destruct (Plain.numeral q) eqn:E; (discriminate IH || reflexivity).
Qed.

Lemma numeral_word (p : positive) : split_space (Plain.numeral p) = [Plain.numeral p].
Proof. induction p as [q IH | q IH |]; simpl; rewrite ?IH; reflexivity. Qed.

Lemma numeral_nonempty (p : positive) : Plain.numeral p <> "".
Proof. destruct p; discriminate. Qed.

Lemma plain_sound : jwt_sound Plain.lib.
Proof.
  split; simpl; unfold Plain.sign, Plain.verify.
  - intros p secret iat t Ht.
    rewrite of_numeral_numeral, decode_encode, String.eqb_refl.
    destruct (Z.ltb_spec t (iat + token_lifetime)); [reflexivity | lia].
  - intros. apply numeral_word.
  - intros. apply numeral_nonempty.
Qed.

(** ** Concrete runs *)

Example split_space_bearer : split_space "Bearer abc" = ["Bearer"; "abc"].
Proof. reflexivity. Qed.

Example js_to_string_arr :
  js_to_string (JArr [JNum 1; JNull; JStr "x"; JArr [JBool true; JNum (-2)]])
  = Some "1,,x,true,-2".
Proof. reflexivity. Qed.

Example js_to_string_own_toString :
  js_to_string (JObj [("toString", JNum 1)]) = None /\
  js_to_string (JArr [JStr "a"; JObj [("toString", JNull)]]) = None /\
  js_to_string (JObj [("valueOf", JNum 1)]) = Some "[object Object]".
Proof. repeat split; reflexivity. Qed.

Example number_to_string_large :
  List.map number_to_string [2 ^ 53; 2 ^ 64; 10 ^ 20; 10 ^ 21; - 2 ^ 70; 2 ^ 1024]
  = ["9007199254740992"; "18446744073709552000"; "100000000000000000000";
     "1e+21"; "-1.1805916207174113e+21"; "Infinity"].
Proof. vm_compute. reflexivity. Qed.

Definition reading (t : Z) (id : string) : env :=
  {| now := t; uuid := id; salt := "salt"; random50 := 6 |}.

Definition alice : payload :=
  {| p_userId := JStr "u-alice"; p_email := JStr "alice@example.com"; p_role := JStr "user" |}.

Definition bob : payload :=
  {| p_userId := JStr "u-bob"; p_email := JStr "bob@example.com"; p_role := JStr "user" |}.

Definition bearer (p : payload) : option string :=
  Some ("Bearer " ++ jwt_sign Plain.lib p (JWT_SECRET None) 1).

Definition alice_form : gmap string jsval :=
  {[ "email" := JStr "alice@example.com";
     "password" := JStr "correct horse";
     "name" := JStr "Alice" ]}.

Definition report : gmap string jsval :=
  {[ "name" := JStr "Nightly report"; "trigger" := JStr "schedule" ]}.

(** The server starts and seeds its admin; Alice registers, creates a
    workflow and starts it. *)
Definition startup : list (action * env) :=
  [ (Listen, reading 0 "");
    (SeedHashed, reading 300 "u-admin") ].

Definition alice_registers : list (action * env) :=
  [ (Req (PostRegister alice_form), reading 1000 "");
    (RegisterHashed 0, reading 1300 "u-alice") ].

Definition alice_works : list (action * env) :=
  [ (Req (PostWorkflows (bearer alice) report), reading 2000 "w-1");
    (Req (PostExecutions (bearer alice) "w-1"), reading 3000 "x-1") ].

Definition session : list (action * env) :=
  (startup ++ alice_registers ++ alice_works)%list.

Definition after_session : state :=
  Eval vm_compute in
    match run Plain.lib None session init with
    | Some (s, _) => s
    | None => init
    end.

Definition session_answers : list response :=
  Eval vm_compute in
    match run Plain.lib None session init with
    | Some (_, out) => out
    | None => []
    end.

Example session_runs :
  run Plain.lib None session init = Some (after_session, session_answers).
Proof. vm_compute. reflexivity. Qed.

Example session_statuses : List.map status session_answers = [201; 201; 201].
Proof. reflexivity. Qed.

Lemma after_session_reachable : reachable Plain.lib None after_session.
Proof. exists session, session_answers. exact session_runs. Qed.

(** Under the instance, a token is accepted for a day, whoever it names. *)
Lemma bearer_authenticated (p : payload) (e : env) :
  seconds e < 1 + token_lifetime ->
  authenticateToken Plain.lib None (bearer p) e = Next p.
Proof. intros He. exact (authenticate_signed Plain.lib None p 1 e plain_sound He). Qed.

(** The workflow Alice created in the session. *)
Definition report_workflow : workflow :=
  Eval vm_compute in new_workflow alice report (reading 2000 "w-1").

(** Alice as the session stored her. *)
Definition alice_user : user :=
  {| u_id := "u-alice";
     u_email := JStr "alice@example.com";
     u_name := JStr "Alice";
     u_password := bcrypt_hash Plain.lib "correct horse" "salt";
     u_role := "user";
     u_createdAt := 1300 |}.

Example session_stores :
  List.map u_id (users after_session) = ["u-admin"; "u-alice"] /\
  users after_session !! 1%nat = Some alice_user /\
  workflows after_session = [report_workflow] /\
  List.map e_id (executions after_session) = ["x-1"] /\
  List.map i_id (integrations after_session)
  = ["github-1"; "slack-1"; "openai-1"; "aws-1"; "stripe-1"].
Proof. repeat split; vm_compute; reflexivity. Qed.

(** Alice starts her workflow a second time. *)
Definition second_start : state * response :=
  Eval vm_compute in post_executions "w-1" alice (reading 4000 "x-2") after_session.

Definition second_execution : execution :=
  Eval vm_compute in new_execution alice "w-1" "Nightly report" (reading 4000 "x-2").

(** ** C1: the claim as stated fails after an ordinary start-up *)

(** The first successful registration after the default admin has been
    seeded creates a "user", not an "admin". *)
Lemma C1_first_registration_after_seed_is_user :
  exists s out,
    run Plain.lib None (startup ++ alice_registers)%list init = Some (s, out) /\
    List.map status out = [201] /\
    registered_roles out = ["user"] /\
    List.map u_role (users s) = ["admin"; "user"].
Proof. eexists. eexists. vm_compute. repeat split; reflexivity. Qed.

(** Served before the start-up hash resolves, the same registration
    creates an "admin", and the seed then adds a second one. *)
Example early_registration_is_admin :
  option_map (fun r => (registered_roles (snd r), List.map u_role (users (fst r))))
    (run Plain.lib None
       [ (Listen, reading 0 "");
         (Req (PostRegister alice_form), reading 10 "");
         (RegisterHashed 0, reading 290 "u-alice");
         (SeedHashed, reading 300 "u-admin") ] init)
  = Some (["admin"], ["admin"; "admin"]).
Proof. vm_compute. reflexivity. Qed.

Lemma C1_role_by_store_witness :
  run Plain.lib None session init = Some (after_session, session_answers) /\
  forall r rest,
    registered_roles session_answers = r :: rest ->
    (r = "admin" \/ r = "user") /\ Forall (eq "user") rest.
Proof.
  split; [exact session_runs|].
  exact (proj2 (proj2 (proj2 (C1_role_by_store Plain.lib None)))
           session after_session session_answers session_runs).
Defined.

(** ** C2 on the session: Bob sees none of Alice's workflows *)

Lemma C2_own_workflows_only_witness :
  authenticateToken Plain.lib None (bearer bob) (reading 4000 "") = Next bob /\
  List.map w_id (workflows after_session) = ["w-1"] /\
  handle Plain.lib None (GetWorkflows (bearer bob)) (reading 4000 "") after_session
  = (after_session, [json 200 (BWorkflows [])]).
Proof.
  assert (authenticateToken Plain.lib None (bearer bob) (reading 4000 "") = Next bob)
    as Hauth by (vm_compute; reflexivity).
  split; [exact Hauth|]. split; [reflexivity|].
  destruct (C2_own_workflows_only Plain.lib None (bearer bob) bob (reading 4000 "")
              after_session Hauth) as (ws & Hanswer & Hws & _).
  rewrite Hanswer, Hws. reflexivity.
Defined.

(** ** C3 on the session: Alice's execution runs, then completes *)

Lemma C3_execution_lifecycle_witness :
  reachable Plain.lib None after_session /\
  List.map e_status (executions after_session) = ["running"] /\
  timers after_session = [{| tm_exec := 0; tm_delay := 2000 |}] /\
  (exists x s1,
     handle Plain.lib None (PostExecutions (bearer alice) "w-1") (reading 4000 "x-2")
       after_session
     = (s1, [json 201 (BExecution x)]) /\
     e_status x = "running" /\
     List.map e_id (executions s1) = ["x-1"; "x-2"] /\
     List.map e_status (executions s1) = ["running"; "running"] /\
     timers s1 = [{| tm_exec := 0; tm_delay := 2000 |};
                  {| tm_exec := 1; tm_delay := 2000 |}]) /\
  (exists s',
     step Plain.lib None (TimerFired 0) (reading 5000 "") after_session = Some (s', []) /\
     timers s' = [] /\
     exists x', executions s' !! 0%nat = Some x' /\
                e_status x' = "completed" /\ e_id x' = "x-1").
Proof.
  split; [exact after_session_reachable|].
  split; [reflexivity|]. split; [reflexivity|].
  destruct (C3_execution_lifecycle Plain.lib None after_session after_session_reachable)
    as (Hcreate & Htimer & _ & _).
  split.
  - assert (handle Plain.lib None (PostExecutions (bearer alice) "w-1")
              (reading 4000 "x-2") after_session
            = (fst second_start, [json 201 (BExecution second_execution)])) as Hpost
      by (vm_compute; reflexivity).
    destruct (Hcreate (bearer alice) "w-1" (reading 4000 "x-2") (fst second_start)
                (json 201 (BExecution second_execution)) Hpost eq_refl)
      as (x & Hx & Hrunning & Hstored & Harmed).
    exists x, (fst second_start).
    split; [rewrite Hpost, Hx; reflexivity|]. split; [exact Hrunning|].
    rewrite Hstored, Harmed, !List.map_app. simpl. rewrite Hrunning.
    injection Hx as <-. repeat split; reflexivity.
  - destruct (Htimer 0%nat {| tm_exec := 0; tm_delay := 2000 |} eq_refl)
      as (_ & _ & Hfires & Hcan).
    destruct (Hcan (reading 5000 "")) as [s' Hstep]; [simpl; lia | simpl; lia |].
    exists s'. split; [exact Hstep|].
    destruct (Hfires _ _ _ Hstep) as (Hgone & x & x' & Hx & Hx' & Hdone & Hid).
    split; [rewrite Hgone; reflexivity|].
    exists x'. split; [exact Hx'|]. split; [exact Hdone|].
    rewrite Hid. injection Hx as <-. reflexivity.
Defined.

(** ** C4 on two requests: no header, and a token nobody signed *)


(** ** C5: two overlapping registrations of one email both succeed *)

Definition alice_again : gmap string jsval :=
  {[ "email" := JStr "alice@example.com";
     "password" := JStr "battery staple";
     "name" := JStr "Alice II" ]}.

(** The second request arrives while the first is suspended at
    [await bcrypt.hash]: both pass the [users.find] check, both push. *)
Definition overlapping : list (action * env) :=
  (startup ++
   [ (Req (PostRegister alice_form), reading 1000 "");
     (Req (PostRegister alice_again), reading 1100 "");
     (RegisterHashed 0, reading 1300 "u-alice");
     (RegisterHashed 0, reading 1400 "u-alice-2") ])%list.

Definition after_overlapping : state :=
  Eval vm_compute in
    match run Plain.lib None overlapping init with
    | Some (s, _) => s
    | None => init
    end.

Definition overlapping_answers : list response :=
  Eval vm_compute in
    match run Plain.lib None overlapping init with
    | Some (_, out) => out
    | None => []
    end.

(** C5, where the code departs from it: after two overlapping POST
    /api/auth/register with one email, both are answered 201 and the user
    store holds two records with that email. *)
Theorem C5_overlapping_registrations_duplicate :
  run Plain.lib None overlapping init = Some (after_overlapping, overlapping_answers) /\
  List.map status overlapping_answers = [201; 201] /\
  List.map u_email (users after_overlapping)
  = [JStr "admin@autoflow.com"; JStr "alice@example.com"; JStr "alice@example.com"] /\
  ~ emails_unique (users after_overlapping).
Proof.
  split; [vm_compute; reflexivity|]. split; [reflexivity|]. split; [reflexivity|].
  intros Huniq.
  specialize (Huniq 1%nat 2%nat _ _ eq_refl eq_refl eq_refl). discriminate Huniq.
Qed.

(** Run one after the other, the same two requests give 201 and then 400. *)
Example sequential_registrations :
  option_map (fun r => List.map status (snd r))
    (run Plain.lib None
       (startup ++
        [ (Req (PostRegister alice_form), reading 1000 "");
          (RegisterHashed 0, reading 1300 "u-alice");
          (Req (PostRegister alice_again), reading 1400 "") ])%list init)
  = Some [201; 400].
Proof. vm_compute. reflexivity. Qed.

(** ** C6: the claim as stated fails on an empty password *)

Definition empty_password : gmap string jsval :=
  {[ "email" := JStr "alice@example.com"; "password" := JStr "" ]}.

(** Alice is registered and the empty password does not match her hash,
    yet the answer is 400, not 401. *)
Lemma C6_empty_password_is_400 :
  reachable Plain.lib None after_session /\
  (exists u,
     List.find (fun u => strict_eq (u_email u) (field empty_password "email"))
       (users after_session) = Some u /\
     bcrypt_compare Plain.lib "" (u_password u) = false) /\
  handle Plain.lib None (PostLogin empty_password) (reading 4000 "") after_session
  = (after_session, [error 400 "Email and password are required"]).
Proof.
  split; [exact after_session_reachable|]. split.
  - eexists. split; vm_compute; reflexivity.
  - vm_compute. reflexivity.
Qed.

Definition alice_login : gmap string jsval :=
  {[ "email" := JStr "alice@example.com"; "password" := JStr "correct horse" ]}.

Definition wrong_password : gmap string jsval :=
  {[ "email" := JStr "alice@example.com"; "password" := JStr "guess" ]}.

Definition false_password : gmap string jsval :=
  {[ "email" := JStr "alice@example.com"; "password" := JBool false ]}.

Definition zero_password : gmap string jsval :=
  {[ "email" := JStr "alice@example.com"; "password" := JNum 0 ]}.

Definition stranger_login : gmap string jsval :=
  {[ "email" := JStr "nobody@example.com"; "password" := JStr "guess" ]}.

Lemma C6_login_credentials_witness :
  jwt_sound Plain.lib /\
  handle Plain.lib None (PostLogin false_password) (reading 4000 "") after_session
  = (after_session, [error 400 "Email and password are required"]) /\
  handle Plain.lib None (PostLogin zero_password) (reading 4000 "") after_session
  = (after_session, [error 400 "Email and password are required"]) /\
  handle Plain.lib None (PostLogin stranger_login) (reading 4000 "") after_session
  = (after_session, [error 401 "Invalid credentials"]) /\
  handle Plain.lib None (PostLogin wrong_password) (reading 4000 "") after_session
  = (after_session, [error 401 "Invalid credentials"]) /\
  exists token,
    handle Plain.lib None (PostLogin alice_login) (reading 4000 "") after_session
    = (after_session,
       [json 200 (BAuth "Login successful" token
                    {| uv_id := "u-alice"; uv_email := JStr "alice@example.com";
                       uv_name := JStr "Alice"; uv_role := "user" |})]) /\
    protected Plain.lib None (Some ("Bearer " ++ token))
      (get_workflows) (reading 5000 "") after_session
    = (after_session, json 200 (BWorkflows [report_workflow])).
Proof.
  assert (forall v : jsval, truthy v = true ->
            ~ (Some v = None \/ Some v = Some JUndefined \/ Some v = Some JNull \/
               Some v = Some (JBool false) \/ Some v = Some (JNum 0) \/
               Some v = Some (JStr ""))) as Htruthy.
  { intros v Hv [H | [H | [H | [H | [H | H]]]]]; inversion H; subst; discriminate Hv. }
  assert (List.find (fun u => strict_eq (u_email u) (JStr "alice@example.com"))
            (users after_session) = Some alice_user) as Halice
    by (vm_compute; reflexivity).
  split; [exact plain_sound|]. split; [|split; [|split; [|split]]].
  - destruct (C6_login_credentials Plain.lib None false_password (reading 4000 "")
                after_session plain_sound) as (r & Hanswer & Hguard & _).
    rewrite Hanswer, Hguard; [reflexivity|]. right. right. right. right. left. reflexivity.
  - destruct (C6_login_credentials Plain.lib None zero_password (reading 4000 "")
                after_session plain_sound) as (r & Hanswer & Hguard & _).
    rewrite Hanswer, Hguard; [reflexivity|]. right. do 4 right. left. reflexivity.
  - destruct (C6_login_credentials Plain.lib None stranger_login (reading 4000 "")
                after_session plain_sound) as (r & Hanswer & _ & Hcred).
    pose proof (Hcred (JStr "nobody@example.com") (JStr "guess") eq_refl eq_refl
                  (Htruthy (JStr "nobody@example.com") eq_refl)
                  (Htruthy (JStr "guess") eq_refl)) as H.
    assert (List.find (fun u => strict_eq (u_email u) (JStr "nobody@example.com"))
              (users after_session) = None) as Hnobody by (vm_compute; reflexivity).
    rewrite Hnobody in H. rewrite Hanswer, H. reflexivity.
  - destruct (C6_login_credentials Plain.lib None wrong_password (reading 4000 "")
                after_session plain_sound) as (r & Hanswer & _ & Hcred).
    pose proof (Hcred (JStr "alice@example.com") (JStr "guess") eq_refl eq_refl
                  (Htruthy (JStr "alice@example.com") eq_refl)
                  (Htruthy (JStr "guess") eq_refl)) as H.
    rewrite Halice in H. specialize (H "guess" eq_refl).
    assert (bcrypt_compare Plain.lib "guess" (u_password alice_user) = false) as Hcmp
      by reflexivity.
    rewrite Hcmp in H. rewrite Hanswer, H. reflexivity.
  - destruct (C6_login_credentials Plain.lib None alice_login (reading 4000 "")
                after_session plain_sound) as (r & Hanswer & _ & Hcred).
    pose proof (Hcred (JStr "alice@example.com") (JStr "correct horse") eq_refl eq_refl
                  (Htruthy (JStr "alice@example.com") eq_refl)
                  (Htruthy (JStr "correct horse") eq_refl)) as H.
    rewrite Halice in H. specialize (H "correct horse" eq_refl).
    assert (bcrypt_compare Plain.lib "correct horse" (u_password alice_user) = true)
      as Hcmp by reflexivity.
    rewrite Hcmp in H. destruct H as (token & Hr & _ & Haccepted).
    exists token. split; [rewrite Hanswer, Hr; reflexivity|].
    rewrite (Haccepted (reading 5000 "") get_workflows after_session eq_refl).
    reflexivity.
Defined.

(** ** C7 on the session: Bob deploys the first template *)

Lemma C7_deploy_template_witness :
  authenticateToken Plain.lib None (bearer bob) (reading 4000 "w-2") = Next bob /\
  exists w s',
    handle Plain.lib None (PostDeploy (bearer bob) "email-automation-1")
      (reading 4000 "w-2") after_session
    = (s', [json 201 (BDeployed "Template deployed successfully" w)]) /\
    List.map w_id (workflows s') = ["w-1"; "w-2"] /\
    w_name w = JStr "Email Marketing Automation" /\
    w_description w = JStr "Automated email sequences for lead nurturing" /\
    w_status w = "active" /\
    w_userId w = JStr "u-bob".
Proof.
  assert (authenticateToken Plain.lib None (bearer bob) (reading 4000 "w-2") = Next bob)
    as Hauth by (vm_compute; reflexivity).
  split; [exact Hauth|].
  destruct (C7_deploy_template Plain.lib None (bearer bob) bob
              {| t_id := "email-automation-1";
                 t_name := "Email Marketing Automation";
                 t_description := "Automated email sequences for lead nurturing";
                 t_category := "Marketing";
                 t_triggers := ["webhook"; "schedule"];
                 t_actions := ["email"; "crm_update"];
                 t_price := 99 |}
              (reading 4000 "w-2") after_session Hauth (or_introl eq_refl))
    as (w & s' & Hanswer & Hpushed & _ & _ & _ & Hname & Hdescr & Hstatus & Huser).
  exists w, s'. split; [exact Hanswer|]. split.
  - rewrite Hpushed. unfold push. rewrite List.map_app. simpl.
    injection Hanswer as _ Hw. rewrite <- Hw. reflexivity.
  - repeat split; assumption.
Defined.

(** ** C8 on the session: Bob cannot start Alice's workflow *)

Lemma C8_execution_unknown_workflow_witness :
  authenticateToken Plain.lib None (bearer bob) (reading 4000 "x-2") = Next bob /\
  List.map w_id (workflows after_session) = ["w-1"] /\
  handle Plain.lib None (PostExecutions (bearer bob) "w-1") (reading 4000 "x-2")
    after_session
  = (after_session, [error 404 "Workflow not found"]).
Proof.
  assert (authenticateToken Plain.lib None (bearer bob) (reading 4000 "x-2") = Next bob)
    as Hauth by (vm_compute; reflexivity).
  split; [exact Hauth|]. split; [reflexivity|].
  destruct (C8_execution_unknown_workflow Plain.lib None (bearer bob) bob "w-1"
              (reading 4000 "x-2") after_session Hauth) as (s' & Hanswer & Hsame & _).
  - intros w [<- | []] _. reflexivity.
  - rewrite Hanswer, Hsame. reflexivity.
Defined.

(** ** C9 on the session: Alice posts a full body, and an empty one *)

Definition digest : gmap string jsval :=
  {[ "name" := JStr "Weekly digest";
     "description" := JStr "Mail the figures";
     "trigger" := JNum 7;
     "actions" := JArr [JStr "email"];
     "status" := JStr "paused" ]}.

Lemma C9_workflow_unvalidated_witness :
  authenticateToken Plain.lib None (bearer alice) (reading 4000 "w-3") = Next alice /\
  (exists w s',
     handle Plain.lib None (PostWorkflows (bearer alice) digest) (reading 4000 "w-3")
       after_session
     = (s', [json 201 (BWorkflow w)]) /\
     workflows s' = [report_workflow; w] /\
     w_id w = "w-3" /\ w_userId w = JStr "u-alice" /\ w_status w = "active" /\
     w_name w = JStr "Weekly digest" /\
     w_description w = JStr "Mail the figures" /\
     w_trigger w = JNum 7 /\
     w_actions w = JArr [JStr "email"]) /\
  (exists w s',
     handle Plain.lib None (PostWorkflows (bearer alice) ∅) (reading 4000 "w-3")
       after_session
     = (s', [json 201 (BWorkflow w)]) /\
     workflows s' = [report_workflow; w] /\
     w_id w = "w-3" /\ w_userId w = JStr "u-alice" /\ w_status w = "active" /\
     w_name w = JUndefined /\ w_description w = JUndefined /\
     w_trigger w = JUndefined /\ w_actions w = JArr []).
Proof.
  assert (authenticateToken Plain.lib None (bearer alice) (reading 4000 "w-3") = Next alice)
    as Hauth by (vm_compute; reflexivity).
  split; [exact Hauth|]. split.
  - destruct (proj1 (C9_workflow_unvalidated Plain.lib None (bearer alice) digest
                       (reading 4000 "w-3") after_session) alice Hauth)
      as (w & s' & Hanswer & Hpushed & _ & _ & _ & _ & _ & _ & Hid & Hstatus & Huser
          & Hname & Hdescr & Htrigger & Hactions & _).
    exists w, s'. split; [exact Hanswer|]. split; [rewrite Hpushed; reflexivity|].
    split; [exact Hid|]. split; [exact Huser|]. split; [exact Hstatus|].
    split; [rewrite Hname; reflexivity|]. split; [rewrite Hdescr; reflexivity|].
    split; [rewrite Htrigger; reflexivity | rewrite Hactions; reflexivity].
  - destruct (proj1 (C9_workflow_unvalidated Plain.lib None (bearer alice) ∅
                       (reading 4000 "w-3") after_session) alice Hauth)
      as (w & s' & Hanswer & Hpushed & _ & _ & _ & _ & _ & _ & Hid & Hstatus & Huser
          & _ & _ & _ & _ & _ & _ & _ & Hempty).
    destruct (Hempty eq_refl) as (Hname & Hdescr & Htrigger & Hactions).
    exists w, s'. split; [exact Hanswer|]. split; [rewrite Hpushed; reflexivity|].
    repeat split; assumption.
Defined.

(** ** C10 on the session: Bob reads the integration Alice configured *)

Definition alice_integration : gmap string jsval :=
  {[ "name" := JStr "Billing"; "type" := JStr "stripe";
     "config" := JObj [("apiKey", JStr "sk_live_alice")] ]}.

Lemma C10_integrations_visible_to_all_witness :
  authenticateToken Plain.lib None (bearer alice) (reading 4000 "i-1") = Next alice /\
  authenticateToken Plain.lib None (bearer bob) (reading 4500 "") = Next bob /\
  exists i s1 shown,
    handle Plain.lib None (PostIntegrations (bearer alice) alice_integration)
      (reading 4000 "i-1") after_session
    = (s1, [json 201 (BIntegration i)]) /\
    i_id i = "i-1" /\
    i_userId i = JStr "u-alice" /\
    i_config i = JObj [("apiKey", JStr "sk_live_alice")] /\
    handle Plain.lib None (GetIntegrations (bearer bob)) (reading 4500 "") s1
    = (s1, [json 200 (BIntegrations shown)]) /\
    List.map i_id shown
    = ["github-1"; "slack-1"; "openai-1"; "aws-1"; "stripe-1"; "i-1"] /\
    List.map i_config shown
    = [JUndefined; JUndefined; JUndefined; JUndefined; JUndefined;
       JObj [("apiKey", JStr "sk_live_alice")]] /\
    In i shown.
Proof.
  assert (authenticateToken Plain.lib None (bearer alice) (reading 4000 "i-1") = Next alice)
    as HA by (vm_compute; reflexivity).
  assert (authenticateToken Plain.lib None (bearer bob) (reading 4500 "") = Next bob)
    as HB by (vm_compute; reflexivity).
  split; [exact HA|]. split; [exact HB|].
  destruct (C10_integrations_visible_to_all Plain.lib None (bearer alice) (bearer bob)
              alice bob alice_integration (reading 4000 "i-1") (reading 4500 "")
              after_session HA HB)
    as (_ & i & s1 & Hpost & Hid & Huser & _ & _ & Hconfig & _ & _
        & (shown & Hget & Hshown & Hin & _) & _).
  exists i, s1, shown. split; [exact Hpost|]. split; [exact Hid|]. split; [exact Huser|].
  split; [rewrite Hconfig; reflexivity|]. split; [exact Hget|].
  split; [|split; [|exact Hin]].
  - rewrite Hshown, List.map_app. simpl. rewrite Hid. reflexivity.
  - rewrite Hshown, List.map_app. simpl. rewrite Hconfig. reflexivity.
Defined.

(** ** The added properties on concrete runs *)

Lemma plain_bcrypt_sound : bcrypt_sound Plain.lib.
Proof.
  split. intros pw salt. simpl.
  induction pw as [|c pw IH]; simpl.
  - destruct (ascii_dec "$" "$"); [destruct salt; reflexivity | contradiction].
  - destruct (ascii_dec c c); [exact IH | contradiction].
Qed.

(** The session, then the timer of Alice's execution. *)
Definition timer_fires_at_5000 : list (action * env) :=
  [ (TimerFired 0, reading 5000 "") ].

Definition after_timer : state :=
  Eval vm_compute in
    match run Plain.lib None timer_fires_at_5000 after_session with
    | Some (s, _) => s
    | None => init
    end.

Example timer_runs :
  run Plain.lib None timer_fires_at_5000 after_session = Some (after_timer, []).
Proof. vm_compute. reflexivity. Qed.

(** The states around Alice's registration. *)
Definition alice_asks : list (action * env) :=
  (startup ++ [ (Req (PostRegister alice_form), reading 1000 "") ])%list.

Definition alice_pending : state :=
  Eval vm_compute in
    match run Plain.lib None alice_asks init with
    | Some (s, _) => s
    | None => init
    end.

Definition alice_registered : state :=
  Eval vm_compute in
    match run Plain.lib None (startup ++ alice_registers)%list init with
    | Some (s, _) => s
    | None => init
    end.

Definition alice_registered_answers : list response :=
  Eval vm_compute in
    match run Plain.lib None (startup ++ alice_registers)%list init with
    | Some (_, out) => out
    | None => []
    end.

Example alice_pending_reachable : reachable Plain.lib None alice_pending.
Proof. exists alice_asks, []. vm_compute. reflexivity. Qed.

Example alice_works_runs :
  option_map fst (run Plain.lib None alice_works alice_registered) = Some after_session.
Proof. vm_compute. reflexivity. Qed.

Lemma stores_grow_by_created_records_witness :
  run Plain.lib None session init = Some (after_session, session_answers) /\
  workflows after_session = omap created_workflow session_answers /\
  integrations after_session = integrations0 /\
  List.map identity (executions after_session)
  = List.map identity (omap created_execution session_answers).
Proof.
  split; [exact session_runs|].
  destruct (stores_grow_by_created_records Plain.lib None session init after_session
              session_answers session_runs) as (_ & Hw & Hi & Hx).
  split; [exact Hw|]. split; [|exact Hx].
  rewrite Hi. reflexivity.
Defined.

Lemma users_are_registrations_and_seed_witness :
  run Plain.lib None session init = Some (after_session, session_answers) /\
  length (users after_session) = 2%nat /\
  length (registered_roles session_answers) = 1%nat.
Proof.
  split; [exact session_runs|].
  destruct (users_are_registrations_and_seed Plain.lib None session after_session
              session_answers session_runs) as [Hcount _].
  split; [rewrite Hcount|]; reflexivity.
Defined.

Lemma executions_listed_per_user_witness :
  authenticateToken Plain.lib None (bearer bob) (reading 4000 "") = Next bob /\
  List.map e_id (executions after_session) = ["x-1"] /\
  handle Plain.lib None (GetExecutions (bearer bob)) (reading 4000 "") after_session
  = (after_session, [json 200 (BExecutions [])]).
Proof.
  assert (authenticateToken Plain.lib None (bearer bob) (reading 4000 "") = Next bob)
    as Hauth by (vm_compute; reflexivity).
  split; [exact Hauth|]. split; [reflexivity|].
  destruct (executions_listed_per_user Plain.lib None (bearer bob) bob (reading 4000 "")
              after_session Hauth) as (xs & Hanswer & Hxs & _).
  rewrite Hanswer, Hxs. reflexivity.
Defined.

(** Alice starts her workflow a second time, then the first timer fires. *)
Definition after_second_timer : state :=
  Eval vm_compute in
    match run Plain.lib None timer_fires_at_5000 (fst second_start) with
    | Some (s, _) => s
    | None => init
    end.

Lemma started_execution_stays_listed_witness :
  post_executions "w-1" alice (reading 4000 "x-2") after_session
  = (fst second_start, json 201 (BExecution second_execution)) /\
  run Plain.lib None timer_fires_at_5000 (fst second_start) = Some (after_second_timer, []) /\
  (exists x',
     In x' (List.filter (fun y => strict_eq (e_userId y) (p_userId alice))
              (executions after_second_timer)) /\
     identity x' = identity second_execution) /\
  (forall x',
     In x' (List.filter (fun y => strict_eq (e_userId y) (p_userId bob))
              (executions after_second_timer)) ->
     identity x' <> identity second_execution).
Proof.
  assert (post_executions "w-1" alice (reading 4000 "x-2") after_session
          = (fst second_start, json 201 (BExecution second_execution))) as Hpost
    by (vm_compute; reflexivity).
  assert (run Plain.lib None timer_fires_at_5000 (fst second_start)
          = Some (after_second_timer, [])) as Hrun by (vm_compute; reflexivity).
  split; [exact Hpost|]. split; [exact Hrun|].
  destruct (started_execution_stays_listed Plain.lib None "w-1" alice (reading 4000 "x-2")
              after_session (fst second_start) second_execution timer_fires_at_5000
              after_second_timer [] Hpost Hrun) as [Hlisted Hhidden].
  split.
  - destruct (Hlisted (reading 6000 "")) as (x' & Hin & _ & Hid). exists x'. auto.
  - intros x'. apply (Hhidden bob x'). reflexivity.
Defined.

Lemma executions_always_refer_to_workflows_witness :
  reachable Plain.lib None after_session /\
  executions_refer_to_workflows after_session.
Proof.
  split; [exact after_session_reachable|].
  exact (executions_always_refer_to_workflows Plain.lib None after_session
           after_session_reachable).
Defined.

(** A workflow whose name is an object with a property [toString]. *)
Definition unprintable : gmap string jsval :=
  {[ "name" := JObj [("toString", JNum 1)] ]}.

Definition unprintable_workflow : workflow :=
  Eval vm_compute in new_workflow alice unprintable (reading 5500 "w-5").

Definition after_unprintable : state :=
  Eval vm_compute in fst (post_workflows unprintable alice (reading 5500 "w-5") after_timer).

Lemma owner_can_start_workflow_witness :
  In report_workflow (workflows after_session) /\
  strict_eq (w_userId report_workflow) (p_userId alice) = true /\
  run Plain.lib None timer_fires_at_5000 after_session = Some (after_timer, []) /\
  authenticateToken Plain.lib None (bearer alice) (reading 6000 "x-3") = Next alice /\
  (exists x s3,
     handle Plain.lib None (PostExecutions (bearer alice) "w-1") (reading 6000 "x-3")
       after_timer
     = (s3, [json 201 (BExecution x)]) /\
     e_status x = "running" /\
     e_logs x = ["Execution started for workflow: Nightly report"] /\
     List.map e_id (executions s3) = ["x-1"; "x-3"] /\
     timers s3 = [{| tm_exec := 1; tm_delay := 2000 |}]) /\
  In unprintable_workflow (workflows after_unprintable) /\
  handle Plain.lib None (PostExecutions (bearer alice) "w-5") (reading 6000 "x-3")
    after_unprintable
  = (after_unprintable, [error 500 "Failed to start execution"]).
Proof.
  assert (In report_workflow (workflows after_session)) as Hin by (left; reflexivity).
  assert (authenticateToken Plain.lib None (bearer alice) (reading 6000 "x-3") = Next alice)
    as Hauth by (vm_compute; reflexivity).
  assert (In unprintable_workflow (workflows after_unprintable)) as Hin5
    by (right; left; reflexivity).
  split; [exact Hin|]. split; [reflexivity|]. split; [exact timer_runs|].
  split; [exact Hauth|]. split; [|split; [exact Hin5|]].
  - destruct (owner_can_start_workflow Plain.lib None (bearer alice) alice report_workflow
                timer_fires_at_5000 after_session after_timer [] (reading 6000 "x-3")
                Hin eq_refl timer_runs Hauth)
      as (w1 & Hfind & _ & _ & _ & Hcase).
    vm_compute in Hfind. injection Hfind as Hw1.
    assert (js_to_string (w_name w1) = Some "Nightly report") as Hname
      by (rewrite <- Hw1; reflexivity).
    rewrite Hname in Hcase.
    destruct Hcase as (x & s3 & Hanswer & Hid & _ & _ & Hrunning & Hlogs & Hstored
                       & Harmed & _).
    exists x, s3. split; [exact Hanswer|]. split; [exact Hrunning|].
    split; [exact Hlogs|].
    rewrite Hstored, Harmed, List.map_app. simpl. rewrite Hid. split; reflexivity.
  - destruct (owner_can_start_workflow Plain.lib None (bearer alice) alice
                unprintable_workflow [] after_unprintable after_unprintable []
                (reading 6000 "x-3") Hin5 eq_refl eq_refl Hauth)
      as (w1 & Hfind & _ & _ & _ & Hcase).
    vm_compute in Hfind. injection Hfind as Hw1.
    assert (js_to_string (w_name w1) = None) as Hname by (rewrite <- Hw1; reflexivity).
    rewrite Hname in Hcase. exact Hcase.
Defined.

(** A workflow named by the number 1e21: the log line has the exponent. *)
Definition big_name : gmap string jsval := {[ "name" := JNum (10 ^ 21) ]}.

Example big_name_log_line :
  option_map e_logs
    (created_execution
       (snd (post_executions "w-6" alice (reading 6000 "x-6")
               (fst (post_workflows big_name alice (reading 5500 "w-6") after_timer)))))
  = Some ["Execution started for workflow: 1e+21"].
Proof. vm_compute. reflexivity. Qed.

Lemma execution_record_shape_witness :
  reachable Plain.lib None after_timer /\
  (forall i x,
     executions after_timer !! i = Some x ->
     (e_status x = "running" /\ e_completedAt x = None /\
      exists name, e_logs x = [started_line name]) \/
     (e_status x = "completed" /\
      (exists t, e_completedAt x = Some t) /\
      exists name n,
        1 <= n <= 50 /\
        e_logs x = [started_line name;
                    "Execution completed successfully";
                    "Processed " ++ string_of_Z n ++ " items"])) /\
  exists x,
    executions after_timer !! 0%nat = Some x /\
    e_status x = "completed" /\
    e_completedAt x = Some 5000 /\
    e_logs x = [ "Execution started for workflow: Nightly report";
                 "Execution completed successfully";
                 "Processed 7 items" ].
Proof.
  assert (reachable Plain.lib None after_timer) as Hreach.
  { exists (session ++ timer_fires_at_5000)%list, session_answers.
    vm_compute. reflexivity. }
  split; [exact Hreach|].
  split; [exact (execution_record_shape Plain.lib None after_timer Hreach)|].
  eexists. split; [reflexivity|]. repeat split.
Defined.

Example completed_record :
  option_map (fun x => (e_status x, e_completedAt x, e_logs x))
    (executions after_timer !! 0%nat)
  = Some ("completed", Some 5000,
          [ "Execution started for workflow: Nightly report";
            "Execution completed successfully";
            "Processed 7 items" ]).
Proof. reflexivity. Qed.

Lemma deploy_unknown_template_witness :
  authenticateToken Plain.lib None (bearer bob) (reading 4000 "w-9") = Next bob /\
  handle Plain.lib None (PostDeploy (bearer bob) "Email-Automation-1") (reading 4000 "w-9")
    after_session
  = (after_session, [error 404 "Template not found"]).
Proof.
  assert (authenticateToken Plain.lib None (bearer bob) (reading 4000 "w-9") = Next bob)
    as Hauth by (vm_compute; reflexivity).
  split; [exact Hauth|].
  apply (deploy_unknown_template Plain.lib None (bearer bob) bob "Email-Automation-1"
           (reading 4000 "w-9") after_session Hauth).
  intros t [<- | [<- | []]]; discriminate.
Defined.

Lemma token_is_the_second_word_witness :
  split_space "Basic" = ["Basic"] /\
  authenticateToken Plain.lib None (Some ("Basic" ++ " " ++ "1x1")) (reading 4000 "")
  = authenticateToken Plain.lib None (Some ("Bearer " ++ "1x1")) (reading 4000 "") /\
  authenticateToken Plain.lib None
    (Some ("Basic" ++ " " ++ "1x1" ++ " " ++ "and more")) (reading 4000 "")
  = authenticateToken Plain.lib None (Some ("Bearer " ++ "1x1")) (reading 4000 "").
Proof.
  split; [reflexivity|].
  exact (token_is_the_second_word Plain.lib None "Basic" "1x1" "and more"
           (reading 4000 "") eq_refl eq_refl).
Defined.

(** A token nobody was issued: Alice's id with the role of an admin. *)
Definition forged : payload :=
  {| p_userId := JStr "u-alice"; p_email := JNull; p_role := JStr "admin" |}.

Lemma default_secret_tokens_accepted_witness :
  jwt_sound Plain.lib /\
  handle Plain.lib None
    (GetWorkflows
       (Some ("Bearer "
              ++ jwt_sign Plain.lib forged "autoflow-secret-key-change-in-production" 5)))
    (reading 6000 "") after_session
  = (after_session, [json 200 (BWorkflows [report_workflow])]).
Proof.
  split; [exact plain_sound|].
  destruct (default_secret_tokens_accepted Plain.lib None forged 5 (reading 6000 "")
              after_session plain_sound (or_introl eq_refl) eq_refl) as [_ Hanswer].
  rewrite Hanswer. reflexivity.
Defined.

Lemma only_the_user_id_matters_witness :
  authenticateToken Plain.lib None (bearer alice) (reading 4000 "") = Next alice /\
  authenticateToken Plain.lib None (bearer forged) (reading 4000 "") = Next forged /\
  handle Plain.lib None (PostExecutions (bearer alice) "w-1") (reading 4000 "") after_session
  = handle Plain.lib None (PostExecutions (bearer forged) "w-1") (reading 4000 "")
      after_session.
Proof.
  assert (authenticateToken Plain.lib None (bearer alice) (reading 4000 "") = Next alice)
    as H1 by (vm_compute; reflexivity).
  assert (authenticateToken Plain.lib None (bearer forged) (reading 4000 "") = Next forged)
    as H2 by (vm_compute; reflexivity).
  split; [exact H1|]. split; [exact H2|].
  exact (only_the_user_id_matters Plain.lib None (PostExecutions None "w-1")
           (bearer alice) (bearer forged) alice forged (reading 4000 "") after_session
           H1 H2 eq_refl).
Defined.

Definition alice_record : pending_registration :=
  {| pr_email := JStr "alice@example.com";
     pr_name := JStr "Alice";
     pr_password := "correct horse" |}.

Lemma registered_user_can_login_witness :
  bcrypt_sound Plain.lib /\
  reachable Plain.lib None alice_pending /\
  registering alice_pending !! 0%nat = Some alice_record /\
  step Plain.lib None (RegisterHashed 0) (reading 1300 "u-alice") alice_pending
  = Some (alice_registered, alice_registered_answers) /\
  exists token u,
    handle Plain.lib None (PostLogin alice_login) (reading 9000 "") after_session
    = (after_session, [json 200 (BAuth "Login successful" token (view u))]) /\
    u_id u = "u-alice" /\ u_email u = JStr "alice@example.com".
Proof.
  assert (step Plain.lib None (RegisterHashed 0) (reading 1300 "u-alice") alice_pending
          = Some (alice_registered, alice_registered_answers)) as Hstep
    by (vm_compute; reflexivity).
  assert (exists out, run Plain.lib None alice_works alice_registered
                      = Some (after_session, out)) as [out Hrun]
    by (eexists; vm_compute; reflexivity).
  split; [exact plain_bcrypt_sound|]. split; [exact alice_pending_reachable|].
  split; [reflexivity|]. split; [exact Hstep|].
  destruct (registered_user_can_login Plain.lib None 0 alice_record (reading 1300 "u-alice")
              alice_pending alice_registered alice_registered_answers alice_works
              after_session out alice_login (reading 9000 "")
              plain_bcrypt_sound alice_pending_reachable eq_refl Hstep)
    as (token & u & Hanswer & _ & Hid & Hemail & _).
  - intros u [<- | []]. reflexivity.
  - reflexivity.
  - exact Hrun.
  - vm_compute. reflexivity.
  - vm_compute. reflexivity.
  - exists token, u. split; [exact Hanswer|]. split; [exact Hid | exact Hemail].
Defined.

Definition listening_only : state :=
  Eval vm_compute in
    match run Plain.lib None [ (Listen, reading 0 "") ] init with
    | Some (s, _) => s
    | None => init
    end.

Definition seeded : state :=
  Eval vm_compute in
    match run Plain.lib None startup init with
    | Some (s, _) => s
    | None => init
    end.

Definition admin_login : gmap string jsval :=
  {[ "email" := JStr "admin@autoflow.com"; "password" := JStr "admin123" ]}.

Lemma default_admin_can_login_witness :
  bcrypt_sound Plain.lib /\
  step Plain.lib None SeedHashed (reading 300 "u-admin") listening_only = Some (seeded, []) /\
  users listening_only = [] /\
  exists token,
    handle Plain.lib None (PostLogin admin_login) (reading 9000 "") after_session
    = (after_session,
       [json 200 (BAuth "Login successful" token
                    {| uv_id := "u-admin";
                       uv_email := JStr "admin@autoflow.com";
                       uv_name := JStr "AutoFlow Admin";
                       uv_role := "admin" |})]).
Proof.
  assert (step Plain.lib None SeedHashed (reading 300 "u-admin") listening_only
          = Some (seeded, [])) as Hstep by (vm_compute; reflexivity).
  assert (exists out, run Plain.lib None (alice_registers ++ alice_works)%list seeded
                      = Some (after_session, out)) as [out Hrun]
    by (eexists; vm_compute; reflexivity).
  split; [exact plain_bcrypt_sound|]. split; [exact Hstep|]. split; [reflexivity|].
  apply (default_admin_can_login Plain.lib None (reading 300 "u-admin") listening_only
           seeded [] (alice_registers ++ alice_works)%list after_session out admin_login
           (reading 9000 "") plain_bcrypt_sound Hstep).
  - intros u [].
  - exact Hrun.
  - vm_compute. reflexivity.
  - vm_compute. reflexivity.
Defined.

(** Registered while the seed's hash was outstanding, the admin's email
    belongs to somebody else and the documented password is refused. *)
Example admin_email_taken_first :
  option_map (fun r => List.map status (snd r))
    (run Plain.lib None
       [ (Listen, reading 0 "");
         (Req (PostRegister
                 {[ "email" := JStr "admin@autoflow.com";
                    "password" := JStr "mine now";
                    "name" := JStr "Mallory" ]}), reading 10 "");
         (RegisterHashed 0, reading 290 "u-mallory");
         (SeedHashed, reading 300 "u-admin");
         (Req (PostLogin admin_login), reading 1000 "") ] init)
  = Some [201; 401].
Proof. vm_compute. reflexivity. Qed.

Definition array_email : gmap string jsval :=
  {[ "email" := JArr [JStr "alice@example.com"];
     "password" := JStr "correct horse";
     "name" := JStr "Alice" ]}.

Lemma non_primitive_email_never_matches_witness :
  primitive (field array_email "email") = false /\
  handle Plain.lib None (PostRegister array_email) (reading 9000 "") after_session
  = (set_registering
       (push {| pr_email := JArr [JStr "alice@example.com"];
                pr_name := JStr "Alice";
                pr_password := "correct horse" |}) after_session, []) /\
  handle Plain.lib None (PostLogin array_email) (reading 9000 "") after_session
  = (after_session, [error 401 "Invalid credentials"]).
Proof.
  assert (primitive (field array_email "email") = false) as Hprim
    by (vm_compute; reflexivity).
  split; [exact Hprim|].
  destruct (non_primitive_email_never_matches Plain.lib None array_email (reading 9000 "")
              after_session Hprim) as [Hregister Hlogin].
  split.
  - rewrite (Hregister "correct horse"); [reflexivity | vm_compute; reflexivity
                                          | discriminate | vm_compute; reflexivity].
  - apply Hlogin. vm_compute. reflexivity.
Defined.

Lemma stats_agree_with_the_lists_witness :
  authenticateToken Plain.lib None (bearer alice) (reading 6000 "") = Next alice /\
  exists st,
    stats_route Plain.lib None 12 34 (bearer alice) (reading 6000 "") after_session = inr st /\
    totalWorkflows st = 1%nat /\ totalExecutions st = 1%nat /\
    totalIntegrations st = 5%nat /\ totalTemplates st = 2%nat.
Proof.
  assert (authenticateToken Plain.lib None (bearer alice) (reading 6000 "") = Next alice)
    as Hauth by (vm_compute; reflexivity).
  split; [exact Hauth|].
  destruct (stats_agree_with_the_lists Plain.lib None 12 34 (bearer alice) alice
              (reading 6000 "") after_session Hauth)
    as (st & ws & xs & Hstats & _).
  exists st. split; [exact Hstats|].
  vm_compute in Hstats. injection Hstats as <-. repeat split; reflexivity.
Defined.

Lemma root_counts_witness :
  run Plain.lib None session init = Some (after_session, session_answers) /\
  root_integrations (get_root after_session) = 5%nat /\
  root_templates (get_root after_session) = 2%nat.
Proof.
  split; [exact session_runs|].
  destruct (root_counts Plain.lib None session after_session session_answers session_runs)
    as (Hi & Ht & _).
  split; [rewrite Hi; reflexivity | exact Ht].
Defined.

Lemma only_201_changes_state_witness :
  handle Plain.lib None (PostLogin wrong_password) (reading 4000 "") after_session
  = (fst (handle Plain.lib None (PostLogin wrong_password) (reading 4000 "") after_session),
     [error 401 "Invalid credentials"]) /\
  fst (handle Plain.lib None (PostLogin wrong_password) (reading 4000 "") after_session)
  = after_session.
Proof.
  assert (handle Plain.lib None (PostLogin wrong_password) (reading 4000 "") after_session
          = (fst (handle Plain.lib None (PostLogin wrong_password) (reading 4000 "")
                    after_session),
             [error 401 "Invalid credentials"])) as Hanswer by (vm_compute; reflexivity).
  split; [exact Hanswer|].
  apply (only_201_changes_state Plain.lib None (PostLogin wrong_password) (reading 4000 "")
           after_session _ (error 401 "Invalid credentials") Hanswer).
  discriminate.
Defined.

Lemma own_workflows_stay_listed_witness :
  In report_workflow (workflows after_session) /\
  run Plain.lib None timer_fires_at_5000 after_session = Some (after_timer, []) /\
  In report_workflow
    (List.filter (fun w => strict_eq (w_userId w) (p_userId alice)) (workflows after_timer)).
Proof.
  assert (In report_workflow (workflows after_session)) as Hin by (left; reflexivity).
  split; [exact Hin|]. split; [exact timer_runs|].
  exact (proj1 (own_workflows_stay_listed Plain.lib None alice after_session)
           report_workflow timer_fires_at_5000 after_timer [] Hin eq_refl timer_runs).
Defined.

Lemma every_execution_can_complete_witness :
  reachable Plain.lib None after_session /\
  exists evs s',
    run Plain.lib None evs after_session = Some (s', []) /\
    timers s' = [] /\
    (forall i x, executions s' !! i = Some x -> e_status x = "completed") /\
    workflows s' = workflows after_session.
Proof.
  split; [exact after_session_reachable|].
  destruct (every_execution_can_complete Plain.lib None after_session
              after_session_reachable) as (evs & s' & Hrun & Hnone & Hdone & _ & Hw & _).
  exists evs, s'. repeat split; assumption.
Defined.
